(** * DoxygenTask: a shallow embedding of [src/pipeline-task/src/index.ts]

    The task reads its inputs once, validates them, writes a Doxygen
    configuration, runs the generator as a subprocess and publishes the
    output directory.  The class is embedded as functions over an explicit
    world (working directory, file system, trace of external calls) in a
    state-and-exception monad; JavaScript strings are lists of UTF-16 code
    units. *)

From Stdlib Require Import String Ascii.
From stdpp Require Import gmap list.

Local Open Scope N_scope.
Local Open Scope list_scope.

(** ** JavaScript strings *)

(** A UTF-16 code unit. *)
Abbreviation cu := N.

(** A JavaScript string: its sequence of code units. *)
Abbreviation jstr := (list N).

Fixpoint lit (s : string) : jstr :=
  match s with
  | EmptyString => []
  | String a r => N_of_ascii a :: lit r
  end.

Definition LF : cu := 10.
Definition CR : cu := 13.
Definition LS : cu := 8232.
Definition PS : cu := 8233.
Definition DQUOTE : cu := 34.
Definition DOLLAR : cu := 36.
Definition AMP : cu := 38.
Definition QUOTE : cu := 39.
Definition BACKTICK : cu := 96.
Definition EQUALS : cu := 61.
Definition SPACE : cu := 32.

(** ECMAScript LineTerminator: LF, CR, LS, PS. *)
Definition isLineTerminator (c : cu) : bool :=
  (c =? LF) || (c =? CR) || (c =? LS) || (c =? PS).

(** ECMAScript [\s]: WhiteSpace (TAB, VT, FF, SP, NBSP, ZWNBSP and the
    Unicode space separators) together with LineTerminator. *)
Definition isWhiteSpace (c : cu) : bool :=
  (c =? 9) || (c =? 11) || (c =? 12) || (c =? SPACE) || (c =? 160)
  || (c =? 5760) || ((8192 <=? c) && (c <=? 8202)) || (c =? 8239)
  || (c =? 8287) || (c =? 12288) || (c =? 65279)
  || isLineTerminator c.

(** [.] without the [s] flag: any code unit but a line terminator. *)
Definition isDot (c : cu) : bool := negb (isLineTerminator c).

(** JavaScript truthiness of a [string | undefined] value. *)
Definition truthy (v : option jstr) : bool :=
  match v with
  | Some (_ :: _) => true
  | _ => false
  end.

(** [a || b] on strings. *)
Definition or_else (v : option jstr) (d : jstr) : jstr :=
  match v with
  | Some (c :: r) => c :: r
  | _ => d
  end.

(** [String.prototype.includes]. *)
Definition includes (hay needle : jstr) : Prop :=
  exists pre post, hay = pre ++ needle ++ post.

(** ** The regular-expression fragment used by the task

    [/^OUTPUT_DIRECTORY\s*=.*$/m] is a sequence of assertions, literal
    code units and greedy stars over a character class; the matcher is the
    backtracking matcher of the ECMAScript specification restricted to
    that fragment. *)

Inductive atom : Type :=
| Bol                              (* ^ with the m flag *)
| Eol                              (* $ with the m flag *)
| Chr (c : cu)                     (* a literal code unit *)
| Star (cls : cu -> bool).         (* cls* , greedy *)

(** [^] with [m]: at the start of the input or after a line terminator.
    [prev] is the code unit before the current position, if any. *)
Definition atLineStart (prev : option cu) : bool :=
  match prev with
  | None => true
  | Some c => isLineTerminator c
  end.

(** [$] with [m]: at the end of the input or before a line terminator. *)
Definition atLineEnd (s : jstr) : bool :=
  match s with
  | [] => true
  | c :: _ => isLineTerminator c
  end.

(** A continuation receives the previous code unit and the remaining
    input and yields the rest of the match and what follows it. *)
Definition cont : Type := option cu -> jstr -> option (jstr * jstr).

Definition consMatch (c : cu) (r : option (jstr * jstr)) : option (jstr * jstr) :=
  match r with
  | Some (m, rest) => Some (c :: m, rest)
  | None => None
  end.

(** Greedy star: take one more code unit of the class if the rest can
    still match, otherwise stop here. *)
Fixpoint star (cls : cu -> bool) (k : cont) (prev : option cu) (s : jstr)
  : option (jstr * jstr) :=
  match s with
  | c :: s' =>
      if cls c then
        match star cls k (Some c) s' with
        | Some (m, rest) => Some (c :: m, rest)
        | None => k prev s
        end
      else k prev s
  | [] => k prev s
  end.

Fixpoint matchAtoms (r : list atom) : cont :=
  match r with
  | [] => fun _ s => Some ([], s)
  | Bol :: r' => fun prev s =>
      if atLineStart prev then matchAtoms r' prev s else None
  | Eol :: r' => fun prev s =>
      if atLineEnd s then matchAtoms r' prev s else None
  | Chr c :: r' => fun prev s =>
      match s with
      | x :: s' => if x =? c then consMatch x (matchAtoms r' (Some x) s') else None
      | [] => None
      end
  | Star cls :: r' => star cls (matchAtoms r')
  end.

(** [RegExp.prototype.exec] from index 0 without the [g] flag: the
    leftmost position at which the pattern matches, as
    (text before, matched text, text after). *)
Fixpoint search (r : list atom) (prev : option cu) (s : jstr)
  : option (jstr * jstr * jstr) :=
  match matchAtoms r prev s with
  | Some (m, post) => Some ([], m, post)
  | None =>
      match s with
      | [] => None
      | c :: s' =>
          match search r (Some c) s' with
          | Some (pre, m, post) => Some (c :: pre, m, post)
          | None => None
          end
      end
  end.

(** GetSubstitution for a pattern without capture groups: [$$], [$&],
    [$`] and [$'] are expanded, every other code unit (also [$] before
    a digit or [<]) is copied. *)
Fixpoint GetSubstitution (matched pre post template : jstr) : jstr :=
  match template with
  | [] => []
  | c :: t =>
      if c =? DOLLAR then
        match t with
        | d :: t' =>
            if d =? DOLLAR then DOLLAR :: GetSubstitution matched pre post t'
            else if d =? BACKTICK then pre ++ GetSubstitution matched pre post t'
            else if d =? AMP then matched ++ GetSubstitution matched pre post t'
            else if d =? QUOTE then post ++ GetSubstitution matched pre post t'
            else c :: GetSubstitution matched pre post t
        | [] => [c]
        end
      else c :: GetSubstitution matched pre post t
  end.

(** [String.prototype.replace(regexp, replacement)] with a string
    replacement and a regexp without the [g] flag. *)
Definition replace (r : list atom) (template text : jstr) : jstr :=
  match search r None text with
  | Some (pre, m, post) => pre ++ GetSubstitution m pre post template ++ post
  | None => text
  end.

Definition OUTPUT_DIRECTORY : jstr := lit "OUTPUT_DIRECTORY".

(** [/^OUTPUT_DIRECTORY\s*=.*$/m] *)
Definition outputDirectoryRe : list atom :=
  Bol :: map Chr OUTPUT_DIRECTORY ++ [Star isWhiteSpace; Chr EQUALS; Star isDot; Eol].


(** ** The world the task runs in *)

Inductive Level : Set := Log | Warn | Error.

(** [tl.TaskResult] *)
Inductive TaskResult : Set := Succeeded | Failed.

(** Calls that leave the task: console output, the host's result and
    artifact API, the process, the file system and subprocesses. *)
Inductive Event : Type :=
| EvConsole (lvl : Level) (msg : jstr)
| EvSetResult (r : TaskResult) (msg : jstr)
| EvExec (cmd : jstr)
| EvChdir (dir : jstr)
| EvPathExists (p : jstr)
| EvEnsureDir (p : jstr)
| EvReadFile (p : jstr)
| EvWriteFile (p content : jstr)
| EvRemove (p : jstr)
| EvUpload (name p display : jstr).

Record FileSystem : Type := mkFS {
  files : gmap jstr jstr;          (* path to content *)
  dirs : gset jstr
}.

Record World : Type := mkWorld {
  cwd : jstr;                      (* what process.cwd() returns *)
  fs : FileSystem;
  trace : list Event               (* oldest call first *)
}.

(** A computation either returns or throws; a thrown value is kept as the
    text that a template literal renders it to. *)
Inductive Outcome (A : Type) : Type :=
| Ok (a : A)
| Throw (e : jstr).
Arguments Ok {A} a.
Arguments Throw {A} e.

(** An [async] method: a function of the world that yields an outcome and
    the world it leaves.  The task awaits every promise at once, so [await]
    is sequencing. *)
Definition M (A : Type) : Type := World -> Outcome A * World.

Definition ret {A} (a : A) : M A := fun w => (Ok a, w).

Definition throw {A} (e : jstr) : M A := fun w => (Throw e, w).

Definition bind {A B} (m : M A) (k : A -> M B) : M B :=
  fun w =>
    match m w with
    | (Ok a, w') => k a w'
    | (Throw e, w') => (Throw e, w')
    end.

(** [try { m } catch (error) { h error }] *)
Definition try_catch {A} (m : M A) (h : jstr -> M A) : M A :=
  fun w =>
    match m w with
    | (Ok a, w') => (Ok a, w')
    | (Throw e, w') => h e w'
    end.

Notation "'let!' x ':=' m 'in' k" := (bind m (fun x => k))
  (at level 10, x name, m at level 100, k at level 200).
Notation "'do!' m 'in' k" := (bind m (fun _ => k))
  (at level 10, m at level 100, k at level 200).

(** What the task does not define itself: Node's [path] module, the
    host's message table [tl.loc], the outcome of a subprocess (its
    result and the file system it leaves behind) and the failures of
    process, file-system and host calls. *)
Record Env : Type := mkEnv {
  path_resolve : jstr -> list jstr -> jstr;   (* current directory, segments *)
  path_join : list jstr -> jstr;
  loc : jstr -> list jstr -> jstr;
  os_exec : jstr -> World -> Outcome (jstr * jstr) * FileSystem;
  fault : Event -> World -> option jstr
}.

Definition record (ev : Event) (w : World) : World :=
  mkWorld (cwd w) (fs w) (trace w ++ [ev]).

Definition emit (ev : Event) : M unit := fun w => (Ok tt, record ev w).

(** A call that the environment may make fail. *)
Definition guarded {A} (env : Env) (ev : Event) (act : M A) : M A :=
  fun w =>
    match fault env ev w with
    | Some e => (Throw e, record ev w)
    | None => act (record ev w)
    end.

Definition console_log (msg : jstr) : M unit := emit (EvConsole Log msg).
Definition console_warn (msg : jstr) : M unit := emit (EvConsole Warn msg).
Definition console_error (msg : jstr) : M unit := emit (EvConsole Error msg).

(** [tl.setResult] *)
Definition setResult (r : TaskResult) (msg : jstr) : M unit :=
  emit (EvSetResult r msg).

Definition process_cwd : M jstr := fun w => (Ok (cwd w), w).

(** [process.chdir] may throw; when it returns, the working directory is
    the directory it was given (directories go by the absolute paths that
    [process.cwd] reports). *)
Definition process_chdir (env : Env) (d : jstr) : M unit :=
  guarded env (EvChdir d) (fun w => (Ok tt, mkWorld d (fs w) (trace w))).

(** [promisify(exec)]: resolves with the output streams or rejects. *)
Definition execAsync (env : Env) (cmd : jstr) : M (jstr * jstr) :=
  fun w =>
    let (r, fs') := os_exec env cmd w in
    (r, mkWorld (cwd w) fs' (trace w ++ [EvExec cmd])).

(** [fs.pathExists] resolves to a boolean and never rejects. *)
Definition fs_pathExists (p : jstr) : M bool :=
  fun w =>
    (Ok (bool_decide (is_Some (files (fs w) !! p)) || bool_decide (p ∈ dirs (fs w))),
     record (EvPathExists p) w).

Definition fs_ensureDir (env : Env) (p : jstr) : M unit :=
  guarded env (EvEnsureDir p)
    (fun w => (Ok tt, mkWorld (cwd w) (mkFS (files (fs w)) ({[p]} ∪ dirs (fs w))) (trace w))).

Definition ENOENT (p : jstr) : jstr :=
  lit "Error: ENOENT: no such file or directory, open '" ++ p ++ lit "'".

Definition fs_readFile (env : Env) (p : jstr) : M jstr :=
  guarded env (EvReadFile p)
    (fun w =>
       match files (fs w) !! p with
       | Some content => (Ok content, w)
       | None => (Throw (ENOENT p), w)
       end).

Definition fs_writeFile (env : Env) (p content : jstr) : M unit :=
  guarded env (EvWriteFile p content)
    (fun w => (Ok tt, mkWorld (cwd w) (mkFS (<[p := content]> (files (fs w))) (dirs (fs w))) (trace w))).

Definition fs_remove (env : Env) (p : jstr) : M unit :=
  guarded env (EvRemove p)
    (fun w => (Ok tt, mkWorld (cwd w) (mkFS (delete p (files (fs w))) (dirs (fs w) ∖ {[p]})) (trace w))).

(** [tl.uploadArtifact] *)
Definition uploadArtifact (env : Env) (name p display : jstr) : M unit :=
  guarded env (EvUpload name p display) (ret tt).

(** The [tl.setResult] calls of a trace, oldest first. *)
Fixpoint results (t : list Event) : list (TaskResult * jstr) :=
  match t with
  | [] => []
  | EvSetResult r msg :: t' => (r, msg) :: results t'
  | _ :: t' => results t'
  end.

(** ** The task *)

Record TaskInputs : Type := mkInputs {
  sourceDirectory : jstr;
  outputDirectory : jstr;
  projectName : jstr;
  projectVersion : option jstr;
  sourceFilePattern : jstr;
  useCustomDoxyFile : bool;
  customDoxyFilePath : option jstr
}.

(** The host's input accessors ([undefined] is [None]), for the calls
    that return. *)
Record Host : Type := mkHost {
  getPathInput : jstr -> option jstr;
  getInput : jstr -> option jstr;
  getBoolInput : jstr -> bool
}.

Definition getInputs (env : Env) (h : Host) (w : World) : TaskInputs :=
  {| sourceDirectory := or_else (getPathInput h (lit "sourceDirectory")) (cwd w);
     outputDirectory :=
       or_else (getPathInput h (lit "outputDirectory")) (path_join env [cwd w; lit "docs"]);
     projectName := or_else (getInput h (lit "ProjectName")) (lit "My Project");
     projectVersion := Some (or_else (getInput h (lit "ProjectVersion")) (lit "1.0"));
     sourceFilePattern :=
       or_else (getInput h (lit "SourceFilePattern")) (lit "*.c *.cpp *.h *.hpp");
     useCustomDoxyFile := getBoolInput h (lit "UseCustomDoxyFile");
     customDoxyFilePath := getPathInput h (lit "CustomDoxyFilePath") |}.

(** How a template literal renders a [string | undefined]. *)
Definition render (v : option jstr) : jstr :=
  match v with
  | Some s => s
  | None => lit "undefined"
  end.

Section Task.

Variable env : Env.
Variable inputs : TaskInputs.

Definition checkDoxygenInstallation : M bool :=
  try_catch
    (do! execAsync env (lit "doxygen --version") in
     do! console_log (lit "Doxygen found and available") in
     ret true)
    (fun _ =>
       do! console_error (lit "Doxygen not found in PATH") in
       ret false).

Definition MissingCustomPathMessage : jstr :=
  lit "Custom Doxyfile path is required when using custom configuration file option".

(** Each [return] after a [tl.setResult] ends the method; the checks that
    follow it in the source are the other branch here. *)
Definition validateInputs : M unit :=
  let! doxygenAvailable := checkDoxygenInstallation in
  if negb doxygenAvailable then
    setResult Failed (loc env (lit "DoxygenNotFound") [])
  else
    let afterConfigCheck : M unit :=
      if useCustomDoxyFile inputs && negb (truthy (customDoxyFilePath inputs)) then
        setResult Failed MissingCustomPathMessage
      else
        fs_ensureDir env (outputDirectory inputs) in
    if useCustomDoxyFile inputs && truthy (customDoxyFilePath inputs) then
      let! here := process_cwd in
      let configPath :=
        path_resolve env here [sourceDirectory inputs; render (customDoxyFilePath inputs)] in
      let! found := fs_pathExists configPath in
      if negb found then
        setResult Failed (loc env (lit "ConfigFileNotFound") [configPath])
      else afterConfigCheck
    else afterConfigCheck.

Definition generateAutoDoxyfile : jstr :=
  lit "# Auto-generated Doxygen configuration file" ++ [LF] ++
  lit "# Generated by Azure DevOps Doc via Doxygen task" ++ [LF] ++
  [LF] ++
  lit "# Project information" ++ [LF] ++
  lit "PROJECT_NAME           = " ++ [DQUOTE] ++ projectName inputs ++ [DQUOTE] ++ [LF] ++
  lit "PROJECT_NUMBER         = " ++ [DQUOTE]
    ++ or_else (projectVersion inputs) (lit "1.0") ++ [DQUOTE] ++ [LF] ++
  lit "PROJECT_BRIEF          = " ++ [DQUOTE]
    ++ lit "Documentation for " ++ projectName inputs ++ [DQUOTE] ++ [LF] ++
  [LF] ++
  lit "# Input settings" ++ [LF] ++
  lit "INPUT                  = " ++ sourceDirectory inputs ++ [LF] ++
  lit "RECURSIVE              = YES" ++ [LF] ++
  lit "FILE_PATTERNS          = " ++ sourceFilePattern inputs ++ [LF] ++
  [LF] ++
  lit "# Output settings" ++ [LF] ++
  lit "OUTPUT_DIRECTORY       = " ++ outputDirectory inputs ++ [LF] ++
  lit "GENERATE_HTML          = YES" ++ [LF] ++
  lit "GENERATE_LATEX         = NO" ++ [LF] ++
  lit "HTML_OUTPUT            = html" ++ [LF] ++
  [LF] ++
  lit "# Documentation extraction settings" ++ [LF] ++
  lit "EXTRACT_ALL            = YES" ++ [LF] ++
  lit "EXTRACT_PRIVATE        = YES" ++ [LF] ++
  lit "EXTRACT_STATIC         = YES" ++ [LF] ++
  lit "EXTRACT_LOCAL_CLASSES  = YES" ++ [LF] ++
  [LF] ++
  lit "# Source browsing" ++ [LF] ++
  lit "SOURCE_BROWSER         = YES" ++ [LF] ++
  lit "INLINE_SOURCES         = YES" ++ [LF] ++
  [LF] ++
  lit "# Preprocessing" ++ [LF] ++
  lit "ENABLE_PREPROCESSING   = YES" ++ [LF] ++
  lit "MACRO_EXPANSION        = YES" ++ [LF] ++
  lit "EXPAND_ONLY_PREDEF     = NO" ++ [LF] ++
  [LF] ++
  lit "# Dot tool (for diagrams)" ++ [LF] ++
  lit "HAVE_DOT               = NO" ++ [LF] ++
  lit "CLASS_DIAGRAMS         = YES" ++ [LF] ++
  [LF] ++
  lit "# Other settings" ++ [LF] ++
  lit "GENERATE_TREEVIEW      = YES" ++ [LF] ++
  lit "DISABLE_INDEX          = NO" ++ [LF] ++
  lit "FULL_SIDEBAR           = NO" ++ [LF] ++
  lit "HTML_COLORSTYLE_HUE    = 220" ++ [LF] ++
  lit "HTML_COLORSTYLE_SAT    = 100" ++ [LF] ++
  lit "HTML_COLORSTYLE_GAMMA  = 80" ++ [LF] ++
  [LF] ++
  lit "# Include subdirectories" ++ [LF] ++
  lit "RECURSIVE              = YES" ++ [LF] ++
  [LF] ++
  lit "# Optimize for different programming languages" ++ [LF] ++
  lit "OPTIMIZE_OUTPUT_FOR_C  = YES" ++ [LF] ++
  lit "OPTIMIZE_OUTPUT_JAVA   = YES" ++ [LF] ++
  [LF] ++
  lit "# Include documentation for undocumented members" ++ [LF] ++
  lit "EXTRACT_ALL            = YES" ++ [LF].

(** The custom-mode rewrite of the configuration text (lines 98-101). *)
Definition patchOutputDirectory (outputDir configContent : jstr) : jstr :=
  replace outputDirectoryRe (lit "OUTPUT_DIRECTORY = " ++ outputDir) configContent.

Definition TempFileName : jstr := lit "Doxyfile.tmp".

Definition generatorCommand (tempConfigPath : jstr) : jstr :=
  lit "doxygen " ++ [DQUOTE] ++ tempConfigPath ++ [DQUOTE].

Definition generateDocumentation : M unit :=
  try_catch
    (do! console_log (lit "Generating documentation for project: " ++ projectName inputs) in
     do! console_log (lit "Project version: " ++ render (projectVersion inputs)) in
     do! console_log (lit "Source directory: " ++ sourceDirectory inputs) in
     do! console_log (lit "Output directory: " ++ outputDirectory inputs) in
     do! console_log (lit "Source file pattern: " ++ sourceFilePattern inputs) in
     let! originalCwd := process_cwd in
     do! process_chdir env (sourceDirectory inputs) in
     let! configContent :=
       (if useCustomDoxyFile inputs && truthy (customDoxyFilePath inputs) then
          do! console_log
                (lit "Using custom Doxyfile: " ++ render (customDoxyFilePath inputs)) in
          let! here := process_cwd in
          let configPath := path_resolve env here [render (customDoxyFilePath inputs)] in
          let! content := fs_readFile env configPath in
          ret (patchOutputDirectory (outputDirectory inputs) content)
        else
          do! console_log (lit "Generating automatic Doxygen configuration...") in
          ret generateAutoDoxyfile) in
     let! here := process_cwd in
     let tempConfigPath := path_join env [here; TempFileName] in
     do! fs_writeFile env tempConfigPath configContent in
     let! output := execAsync env (generatorCommand tempConfigPath) in
     do! (match fst output with
          | [] => ret tt
          | _ => console_log (lit "Doxygen output: " ++ fst output)
          end) in
     do! (match snd output with
          | [] => ret tt
          | _ => console_warn (lit "Doxygen warnings: " ++ snd output)
          end) in
     do! fs_remove env tempConfigPath in
     do! process_chdir env originalCwd in
     console_log (loc env (lit "DocumentationGenerated") [outputDirectory inputs]))
    (fun error =>
       do! setResult Failed (lit "Failed to generate documentation: " ++ error) in
       throw error).

Definition ArtifactName : jstr := lit "documentation".

Definition publishArtifacts : M unit :=
  try_catch
    (let artifactName := ArtifactName in
     do! console_log (loc env (lit "PublishingArtifacts") [artifactName]) in
     do! uploadArtifact env artifactName (outputDirectory inputs) artifactName in
     console_log (lit "Documentation artifacts published successfully as: " ++ artifactName))
    (fun error => console_warn (lit "Failed to publish artifacts: " ++ error)).

Definition SuccessMessage : jstr := lit "Documentation generated successfully".

Definition run : M unit :=
  try_catch
    (do! console_log (lit "Starting Doxygen documentation generation task...") in
     do! validateInputs in
     do! generateDocumentation in
     do! publishArtifacts in
     do! console_log (lit "Documentation generation task completed successfully") in
     setResult Succeeded SuccessMessage)
    (fun error =>
       do! console_error (lit "Task failed: " ++ error) in
       setResult Failed (lit "Task failed: " ++ error)).

End Task.

(** ** Scenarios

    Concrete collaborators in the manner of the test suite: [tl.loc]
    renders a key and its arguments, paths are joined with a slash, the
    generator answers as told and only the artifact upload can be made to
    fail. *)

Fixpoint joinWith (sep : jstr) (parts : list jstr) : jstr :=
  match parts with
  | [] => []
  | [p] => p
  | p :: rest => p ++ sep ++ joinWith sep rest
  end.

Definition isAbsolute (p : jstr) : bool :=
  match p with
  | 47 :: _ => true
  | _ => false
  end.

Definition scenarioResolve (here : jstr) (segments : list jstr) : jstr :=
  fold_left (fun acc seg => if isAbsolute seg then seg else acc ++ lit "/" ++ seg)
    segments here.

Definition scenarioLoc (key : jstr) (args : list jstr) : jstr :=
  key ++ lit ": " ++ joinWith (lit ", ") args.

Definition ProbeCommand : jstr := lit "doxygen --version".

Definition scenarioExec (probeOk generatorOk : bool) (cmd : jstr) (w : World)
  : Outcome (jstr * jstr) * FileSystem :=
  if bool_decide (cmd = ProbeCommand) then
    if probeOk then (Ok (lit "doxygen 1.9.1", []), fs w)
    else (Throw (lit "Error: Command not found"), fs w)
  else
    if generatorOk then (Ok (lit "Documentation generated successfully", []), fs w)
    else (Throw (lit "Error: Doxygen failed"), fs w).

Definition scenarioFault (uploadOk : bool) (ev : Event) (w : World) : option jstr :=
  match ev with
  | EvUpload _ _ _ => if uploadOk then None else Some (lit "Error: Upload failed")
  | _ => None
  end.

Definition scenarioEnv (probeOk generatorOk uploadOk : bool) : Env :=
  {| path_resolve := scenarioResolve;
     path_join := joinWith (lit "/");
     loc := scenarioLoc;
     os_exec := scenarioExec probeOk generatorOk;
     fault := scenarioFault uploadOk |}.

Definition scenarioInputs (custom : bool) (customPath : option jstr) : TaskInputs :=
  {| sourceDirectory := lit "/test/source";
     outputDirectory := lit "/test/output";
     projectName := lit "Test Project";
     projectVersion := Some (lit "1.0.0");
     sourceFilePattern := lit "*.cpp *.h";
     useCustomDoxyFile := custom;
     customDoxyFilePath := customPath |}.

Definition healthyEnv : Env := scenarioEnv true true true.
Definition noGeneratorEnv : Env := scenarioEnv false true true.
Definition failingGeneratorEnv : Env := scenarioEnv true false true.
Definition failingUploadEnv : Env := scenarioEnv true true false.

Definition autoInputs : TaskInputs := scenarioInputs false None.
Definition customWithoutPath : TaskInputs := scenarioInputs true None.

Definition scenarioWorld : World :=
  {| cwd := lit "/original";
     fs := {| files := ∅; dirs := {[ lit "/test/source" ]} |};
     trace := [] |}.

(** The two failure messages built from a caught error. *)
Definition GenerationFailed (e : jstr) : jstr :=
  lit "Failed to generate documentation: " ++ e.

Definition TaskFailed (e : jstr) : jstr := lit "Task failed: " ++ e.

(** The world in which [run] calls [validateInputs]. *)
Definition started (w : World) : World :=
  record (EvConsole Log (lit "Starting Doxygen documentation generation task...")) w.

(** The calls [publishArtifacts] makes up to and including the upload. *)
Definition uploadCall (inputs : TaskInputs) : Event :=
  EvUpload ArtifactName (outputDirectory inputs) ArtifactName.

Definition publishing (env : Env) (w : World) : World :=
  record (EvConsole Log (loc env (lit "PublishingArtifacts") [ArtifactName])) w.

(** The subprocess commands, directory changes and removals of a trace. *)
Definition execs (t : list Event) : list jstr :=
  omap (fun ev => match ev with EvExec c => Some c | _ => None end) t.

Definition chdirs (t : list Event) : list jstr :=
  omap (fun ev => match ev with EvChdir d => Some d | _ => None end) t.

Definition warnings (t : list Event) : list jstr :=
  omap (fun ev => match ev with EvConsole Warn msg => Some msg | _ => None end) t.

Definition removals (t : list Event) : list jstr :=
  omap (fun ev => match ev with EvRemove f => Some f | _ => None end) t.

(** The world in which [generateDocumentation] changes directory: its
    five announcements have been logged. *)
Definition announced (inputs : TaskInputs) (w : World) : World :=
  record (EvConsole Log (lit "Source file pattern: " ++ sourceFilePattern inputs))
   (record (EvConsole Log (lit "Output directory: " ++ outputDirectory inputs))
    (record (EvConsole Log (lit "Source directory: " ++ sourceDirectory inputs))
     (record (EvConsole Log (lit "Project version: " ++ render (projectVersion inputs)))
      (record (EvConsole Log
                 (lit "Generating documentation for project: " ++ projectName inputs))
         w)))).

(** The same inputs with the custom-file flag cleared. *)
Definition autoMode (inputs : TaskInputs) : TaskInputs :=
  {| sourceDirectory := sourceDirectory inputs;
     outputDirectory := outputDirectory inputs;
     projectName := projectName inputs;
     projectVersion := projectVersion inputs;
     sourceFilePattern := sourceFilePattern inputs;
     useCustomDoxyFile := false;
     customDoxyFilePath := customDoxyFilePath inputs |}.

(** ** What the custom-mode rewrite is expected to do *)

(** The code unit before the position reached by reading [s], when [prev]
    was before its start. *)
Definition lastCu (prev : option cu) (s : jstr) : option cu :=
  fold_left (fun _ c => Some c) s prev.

(** [rest] begins with [OUTPUT_DIRECTORY], white space and an equals sign,
    and the text [pre] before it ends a line. *)
Definition directiveStartsAt (pre rest : jstr) : Prop :=
  atLineStart (lastCu None pre) = true /\
  exists ws tail,
    rest = OUTPUT_DIRECTORY ++ ws ++ EQUALS :: tail /\
    forallb isWhiteSpace ws = true.

(** A whole directive: the name, white space (line breaks included), the
    equals sign and the rest of that line. *)
Definition isDirective (m : jstr) : Prop :=
  exists ws val,
    m = OUTPUT_DIRECTORY ++ ws ++ EQUALS :: val /\
    forallb isWhiteSpace ws = true /\
    forallb isDot val = true.

(** [m] is the first directive of [text], between [pre] and [post]. *)
Definition firstDirective (text pre m post : jstr) : Prop :=
  text = pre ++ m ++ post /\
  atLineStart (lastCu None pre) = true /\
  isDirective m /\
  atLineEnd post = true /\
  forall p1 p2, pre = p1 ++ p2 -> p2 <> [] -> ~ directiveStartsAt p1 (p2 ++ m ++ post).

Definition noDirective (text : jstr) : Prop :=
  forall p1 p2, text = p1 ++ p2 -> ~ directiveStartsAt p1 p2.

(** No replacement pattern: no dollar sign followed by a dollar sign, a
    backtick, an ampersand or a quote. *)
Fixpoint patternFree (t : jstr) : bool :=
  match t with
  | [] => true
  | c :: t' =>
      if c =? DOLLAR then
        match t' with
        | d :: _ =>
            negb ((d =? DOLLAR) || (d =? BACKTICK) || (d =? AMP) || (d =? QUOTE))
            && patternFree t'
        | [] => true
        end
      else patternFree t'
  end.

Fixpoint stripPrefix (p s : jstr) : option jstr :=
  match p with
  | [] => Some s
  | c :: p' =>
      match s with
      | x :: s' => if x =? c then stripPrefix p' s' else None
      | [] => None
      end
  end.

Fixpoint takeWhile (cls : cu -> bool) (s : jstr) : jstr :=
  match s with
  | c :: s' => if cls c then c :: takeWhile cls s' else []
  | [] => []
  end.

Fixpoint dropWhile (cls : cu -> bool) (s : jstr) : jstr :=
  match s with
  | c :: s' => if cls c then dropWhile cls s' else s
  | [] => []
  end.

(** The matcher at one position, in closed form. *)
Definition matchDirective (prev : option cu) (s : jstr) : option (jstr * jstr) :=
  if atLineStart prev then
    match stripPrefix OUTPUT_DIRECTORY s with
    | Some s1 =>
        match dropWhile isWhiteSpace s1 with
        | e :: s2 =>
            if e =? EQUALS then
              Some (OUTPUT_DIRECTORY ++ takeWhile isWhiteSpace s1
                      ++ EQUALS :: takeWhile isDot s2,
                    dropWhile isDot s2)
            else None
        | [] => None
        end
    | None => None
    end
  else None.

(** Whether the text at a position begins a directive. *)
Definition startsDirective (s : jstr) : bool :=
  match stripPrefix OUTPUT_DIRECTORY s with
  | Some s1 =>
      match dropWhile isWhiteSpace s1 with
      | e :: _ => e =? EQUALS
      | [] => false
      end
  | None => false
  end.

(** A decision procedure for [includes]. *)
Fixpoint includesb (hay needle : jstr) : bool :=
  match stripPrefix needle hay with
  | Some _ => true
  | None =>
      match hay with
      | [] => false
      | _ :: hay' => includesb hay' needle
      end
  end.

(** ** The entry point *)

(** The host's accessors as the library offers them: each takes the input
    name and the [required] flag, and may throw. *)
Record HostApi : Type := mkHostApi {
  apiGetPathInput : jstr -> bool -> Outcome (option jstr);
  apiGetInput : jstr -> bool -> Outcome (option jstr);
  apiGetBoolInput : jstr -> bool -> Outcome bool
}.

Definition liftOutcome {A} (r : Outcome A) : M A := fun w => (r, w).

(** The constructor: [this.inputs = this.getInputs()], the accessors being
    called in the order of the object literal.  [process.cwd()] has no
    effect and is read once for the two defaults that use it. *)
Definition construct (env : Env) (api : HostApi) : M TaskInputs :=
  let! here := process_cwd in
  let! sourceDir := liftOutcome (apiGetPathInput api (lit "sourceDirectory") true) in
  let! outputDir := liftOutcome (apiGetPathInput api (lit "outputDirectory") true) in
  let! name := liftOutcome (apiGetInput api (lit "ProjectName") true) in
  let! version := liftOutcome (apiGetInput api (lit "ProjectVersion") false) in
  let! pattern := liftOutcome (apiGetInput api (lit "SourceFilePattern") true) in
  let! custom := liftOutcome (apiGetBoolInput api (lit "UseCustomDoxyFile") true) in
  let! customPath := liftOutcome (apiGetPathInput api (lit "CustomDoxyFilePath") false) in
  ret {| sourceDirectory := or_else sourceDir here;
         outputDirectory := or_else outputDir (path_join env [here; lit "docs"]);
         projectName := or_else name (lit "My Project");
         projectVersion := Some (or_else version (lit "1.0"));
         sourceFilePattern := or_else pattern (lit "*.c *.cpp *.h *.hpp");
         useCustomDoxyFile := custom;
         customDoxyFilePath := customPath |}.

Definition main (env : Env) (api : HostApi) : M unit :=
  let! task := construct env api in
  run env task.

Definition UnhandledError (e : jstr) : jstr := lit "Unhandled error: " ++ e.

(** The module's last statement.  [nodeEnv] is [process.env.NODE_ENV];
    [inspect] is how the console shows a caught value. *)
Definition entry (env : Env) (api : HostApi) (nodeEnv : option jstr)
    (inspect : jstr -> jstr) : M unit :=
  if negb (truthy nodeEnv) || negb (bool_decide (nodeEnv = Some (lit "test"))) then
    try_catch (main env api)
      (fun error =>
         do! console_error (lit "Unhandled error: " ++ inspect error) in
         setResult Failed (UnhandledError error))
  else ret tt.

(** ** More projections of a trace *)

Definition uploads (t : list Event) : list (jstr * jstr * jstr) :=
  omap (fun ev => match ev with EvUpload n p d => Some (n, p, d) | _ => None end) t.

(** The calls of a trace that are not console output, in order. *)
Fixpoint nonConsole (t : list Event) : list Event :=
  match t with
  | [] => []
  | EvConsole _ _ :: t' => nonConsole t'
  | ev :: t' => ev :: nonConsole t'
  end.

(** The line the custom-mode rewrite puts in. *)
Definition directiveLine (outputDir : jstr) : jstr :=
  lit "OUTPUT_DIRECTORY = " ++ outputDir.

(** The paths [generateDocumentation] works on. *)
Definition tempConfigPathOf (env : Env) (inputs : TaskInputs) : jstr :=
  path_join env [sourceDirectory inputs; TempFileName].


Definition customMode (inputs : TaskInputs) : bool :=
  useCustomDoxyFile inputs && truthy (customDoxyFilePath inputs).

(** More scenarios: the accessors of the test suite, and a host that
    lacks the required project name. *)
Definition scenarioApi : HostApi :=
  {| apiGetPathInput := fun name _ =>
       if bool_decide (name = lit "sourceDirectory") then Ok (Some (lit "/test/source"))
       else if bool_decide (name = lit "outputDirectory") then Ok (Some (lit "/test/output"))
       else if bool_decide (name = lit "CustomDoxyFilePath")
            then Ok (Some (lit "/test/custom/doxyfile"))
       else Ok None;
     apiGetInput := fun name _ =>
       if bool_decide (name = lit "ProjectName") then Ok (Some (lit "Test Project"))
       else if bool_decide (name = lit "ProjectVersion") then Ok (Some (lit "1.0.0"))
       else if bool_decide (name = lit "SourceFilePattern") then Ok (Some (lit "*.cpp *.h"))
       else Ok None;
     apiGetBoolInput := fun _ _ => Ok false |}.

Definition namelessApi : HostApi :=
  {| apiGetPathInput := apiGetPathInput scenarioApi;
     apiGetInput := fun name required =>
       if bool_decide (name = lit "ProjectName")
       then Throw (lit "Error: Input required: ProjectName")
       else apiGetInput scenarioApi name required;
     apiGetBoolInput := apiGetBoolInput scenarioApi |}.

Definition customInputs : TaskInputs :=
  scenarioInputs true (Some (lit "/test/custom/doxyfile")).

Definition scenarioWorldWithConfig : World :=
  {| cwd := lit "/original";
     fs := {| files := {[ lit "/test/custom/doxyfile" :=
                            lit "# Sample Doxyfile content" ++ [LF]
                              ++ lit "OUTPUT_DIRECTORY = /old/path" ]};
              dirs := {[ lit "/test/source" ]} |};
     trace := [] |}.

(** A host whose output directory cannot be created. *)
Definition readOnlyEnv : Env :=
  {| path_resolve := scenarioResolve;
     path_join := joinWith (lit "/");
     loc := scenarioLoc;
     os_exec := scenarioExec true true;
     fault := fun ev _ =>
       match ev with
       | EvEnsureDir _ => Some (lit "Error: EACCES: permission denied")
       | _ => None
       end |}.

(** ** Reasoning about traces and outcomes *)

Opaque lit.
Arguments generateAutoDoxyfile : simpl never.
Arguments patchOutputDirectory : simpl never.

Lemma results_app (t1 t2 : list Event) :
  results (t1 ++ t2) = results t1 ++ results t2.
Proof.
  induction t1 as [|ev t1 IH]; simpl; [reflexivity|].
  destruct ev; simpl; rewrite ?IH; reflexivity.
Qed.

Ltac unfold_calls :=
  unfold uploadArtifact, fs_remove, fs_writeFile, fs_readFile, fs_ensureDir,
    fs_pathExists, execAsync, process_chdir, process_cwd, setResult,
    console_log, console_warn, console_error, guarded, emit, try_catch,
    bind, ret, throw, record in *.

Ltac case_step :=
  match goal with
  | |- context [match ?x with _ => _ end] =>
      lazymatch x with
      | context [match _ with _ => _ end] => fail
      | _ => destruct x eqn:?; simpl in *
      end
  end.

Ltac tidy_results :=
  repeat (rewrite ?results_app, <- ?app_assoc; simpl).

(** C8: the generator probe never raises.  When the version query
    resolves the probe returns true; when it fails in any way the probe
    returns false, and validation then records the generator-not-found
    failure and returns normally. *)
Theorem probe_never_raises (env : Env) (inputs : TaskInputs) (w : World) :
  match fst (os_exec env (lit "doxygen --version") w) with
  | Ok _ => exists w1, checkDoxygenInstallation env w = (Ok true, w1)
  | Throw _ =>
      (exists w1, checkDoxygenInstallation env w = (Ok false, w1)) /\
      exists w2, validateInputs env inputs w = (Ok tt, w2) /\
        results (trace w2)
        = results (trace w) ++ [(Failed, loc env (lit "DoxygenNotFound") [])]
  end.
Proof.
  unfold validateInputs, checkDoxygenInstallation. unfold_calls.
  destruct (os_exec env (lit "doxygen --version") w) as [[out|e] fs']; simpl.
  - eauto.
  - split; [eauto|]. eexists; split; [reflexivity|].
    simpl. tidy_results. reflexivity.
Qed.

(** A normal return of [generateDocumentation] leaves the working
    directory and the host results as they were, and happens only after the
    generator run on the temporary file has resolved; a throw records
    exactly one generation failure. *)
Lemma generateDocumentation_outcome (env : Env) (inputs : TaskInputs) (w : World) :
  match generateDocumentation env inputs w with
  | (Ok _, w') =>
      cwd w' = cwd w /\ results (trace w') = results (trace w) /\
      exists wg out fs',
        os_exec env
          (generatorCommand (path_join env [sourceDirectory inputs; TempFileName])) wg
        = (Ok out, fs')
  | (Throw e, w') =>
      results (trace w') = results (trace w) ++ [(Failed, GenerationFailed e)]
  end.
Proof.
  unfold generateDocumentation, GenerationFailed. unfold_calls. simpl.
  repeat case_step; simplify_eq; simpl; tidy_results;
    rewrite ?app_nil_r; eauto 10.
Qed.

Arguments generateDocumentation : simpl never.
Arguments validateInputs : simpl never.
Arguments publishArtifacts : simpl never.
Arguments checkDoxygenInstallation : simpl never.

(** [publishArtifacts] always returns, records no host result, and turns
    a failed upload into one warning. *)
Lemma publishArtifacts_outcome (env : Env) (inputs : TaskInputs) (w : World) :
  exists w', publishArtifacts env inputs w = (Ok tt, w') /\
    cwd w' = cwd w /\ fs w' = fs w /\
    results (trace w') = results (trace w) /\
    trace w' = trace (publishing env w) ++ uploadCall inputs ::
      match fault env (uploadCall inputs) (publishing env w) with
      | Some e => [EvConsole Warn (lit "Failed to publish artifacts: " ++ e)]
      | None => [EvConsole Log
                   (lit "Documentation artifacts published successfully as: "
                    ++ ArtifactName)]
      end.
Proof.
  unfold publishArtifacts, uploadCall, publishing. unfold_calls. simpl.
  destruct (fault env _ _) as [e|]; simpl;
    (eexists; split; [reflexivity|]); simpl; tidy_results;
    rewrite ?app_nil_r; auto.
Qed.

(** [run] unfolded along the outcomes of its three steps. *)
Lemma run_outcome (env : Env) (inputs : TaskInputs) (w : World) :
  exists w', run env inputs w = (Ok tt, w') /\
    match validateInputs env inputs (started w) with
    | (Throw e, w1) =>
        results (trace w') = results (trace w1) ++ [(Failed, TaskFailed e)]
    | (Ok _, w1) =>
        match generateDocumentation env inputs w1 with
        | (Throw e, w2) =>
            results (trace w') = results (trace w2) ++ [(Failed, TaskFailed e)]
        | (Ok _, w2) =>
            results (trace w') = results (trace w2) ++ [(Succeeded, SuccessMessage)]
        end
    end.
Proof.
  unfold run, started, TaskFailed.
  unfold try_catch at 1. unfold bind at 1. unfold console_log at 1, emit at 1.
  unfold bind at 1.
  destruct (validateInputs env inputs _) as [[u|e] w1].
  - unfold bind at 1.
    destruct (generateDocumentation env inputs w1) as [[u2|e] w2].
    + unfold bind at 1.
      destruct (publishArtifacts_outcome env inputs w2) as (w3 & -> & _ & _ & Hr & _).
      unfold_calls. simpl. eexists; split; [reflexivity|].
      simpl. tidy_results. rewrite Hr. reflexivity.
    + unfold_calls. simpl. eexists; split; [reflexivity|].
      simpl. tidy_results. reflexivity.
  - unfold_calls. simpl. eexists; split; [reflexivity|].
    simpl. tidy_results. reflexivity.
Qed.

(** ** Validation and the steps after it *)

(** C1: at inputs that select the custom file without giving its path,
    with the generator installed, validation records the missing-path
    failure and [run] goes on all the same: the generator is run on the
    temporary file and the run ends with a success result. *)
Theorem run_continues_after_validation_failure :
  results (trace (snd (validateInputs healthyEnv customWithoutPath (started scenarioWorld))))
  = [(Failed, MissingCustomPathMessage)] /\
  execs (trace (snd (run healthyEnv customWithoutPath scenarioWorld)))
  = [lit "doxygen --version"; generatorCommand (lit "/test/source/Doxyfile.tmp")] /\
  results (trace (snd (run healthyEnv customWithoutPath scenarioWorld)))
  = [(Failed, MissingCustomPathMessage); (Succeeded, SuccessMessage)].
Proof. vm_compute. repeat split; reflexivity. Qed.

(** C2: when the generator run rejects, [generateDocumentation] throws
    with the working directory still at the source directory and the
    temporary file still on disk; nothing was removed and the directory
    was changed only once. *)
Theorem failed_generation_skips_cleanup :
  fst (generateDocumentation failingGeneratorEnv autoInputs scenarioWorld)
  = Throw (lit "Error: Doxygen failed") /\
  cwd scenarioWorld = lit "/original" /\
  cwd (snd (generateDocumentation failingGeneratorEnv autoInputs scenarioWorld))
  = lit "/test/source" /\
  files (fs (snd (generateDocumentation failingGeneratorEnv autoInputs scenarioWorld)))
    !! lit "/test/source/Doxyfile.tmp"
  = Some (generateAutoDoxyfile autoInputs) /\
  removals (trace (snd (generateDocumentation failingGeneratorEnv autoInputs scenarioWorld)))
  = [] /\
  chdirs (trace (snd (generateDocumentation failingGeneratorEnv autoInputs scenarioWorld)))
  = [lit "/test/source"] /\
  results (trace (snd (generateDocumentation failingGeneratorEnv autoInputs scenarioWorld)))
  = [(Failed, GenerationFailed (lit "Error: Doxygen failed"))].
Proof. vm_compute. repeat split; reflexivity. Qed.

(** C3, as stated, fails: a rejected generator run records two host
    results, not one. *)
Lemma generation_failure_is_reported_twice :
  results (trace (snd (run failingGeneratorEnv autoInputs scenarioWorld)))
  = [(Failed, GenerationFailed (lit "Error: Doxygen failed"));
     (Failed, TaskFailed (lit "Error: Doxygen failed"))] /\
  ~ exists call,
      results (trace (snd (run failingGeneratorEnv autoInputs scenarioWorld))) = [call].
Proof.
  vm_compute. split; [reflexivity|]. intros [call H]. discriminate H.
Qed.

(** C3, amended: in every execution in which validation itself records
    no host result, [run] records one result when validation throws
    (Failed, task failed), one when generation returns (Succeeded, the
    fixed message), and two when generation throws (Failed, generation
    failed, then Failed, task failed). *)
Theorem run_host_results (env : Env) (inputs : TaskInputs) (w : World)
    (r1 : Outcome unit) (w1 : World) :
  validateInputs env inputs (started w) = (r1, w1) ->
  results (trace w1) = results (trace w) ->
  results (trace (snd (run env inputs w)))
  = results (trace w) ++
    match r1 with
    | Throw e => [(Failed, TaskFailed e)]
    | Ok _ =>
        match fst (generateDocumentation env inputs w1) with
        | Ok _ => [(Succeeded, SuccessMessage)]
        | Throw e => [(Failed, GenerationFailed e); (Failed, TaskFailed e)]
        end
    end.
Proof.
  intros Hv Hsilent.
  destruct (run_outcome env inputs w) as (w' & -> & Hrun). simpl.
  rewrite Hv in Hrun. destruct r1 as [u|e].
  - pose proof (generateDocumentation_outcome env inputs w1) as Hg.
    destruct (generateDocumentation env inputs w1) as [[u2|e] w2]; simpl.
    + destruct Hg as (_ & Hg & _). rewrite Hrun, Hg, Hsilent. reflexivity.
    + rewrite Hrun, Hg, Hsilent, <- app_assoc. reflexivity.
  - rewrite Hrun, Hsilent. reflexivity.
Qed.

Lemma run_host_results_witness :
  results (trace (snd (run healthyEnv autoInputs scenarioWorld)))
  = [(Succeeded, SuccessMessage)].
Proof.
  rewrite (run_host_results healthyEnv autoInputs scenarioWorld (Ok tt)
             (snd (validateInputs healthyEnv autoInputs (started scenarioWorld)))).
  - vm_compute. reflexivity.
  - vm_compute. reflexivity.
  - vm_compute. reflexivity.
Defined.

(** C4, as stated, fails: with the custom file selected, no path given
    and the generator missing, validation records the generator-not-found
    failure and never the missing-path one. *)
Lemma missing_path_hidden_by_failed_probe :
  useCustomDoxyFile customWithoutPath = true /\
  customDoxyFilePath customWithoutPath = None /\
  results (trace (snd (validateInputs noGeneratorEnv customWithoutPath scenarioWorld)))
  = [(Failed, lit "DoxygenNotFound: ")] /\
  ~ In (Failed, MissingCustomPathMessage)
      (results (trace (snd (validateInputs noGeneratorEnv customWithoutPath scenarioWorld)))).
Proof.
  vm_compute. repeat split; try reflexivity.
  intros [H|[]]. discriminate H.
Qed.

(** C4, amended: with the custom file selected and no path given,
    validation returns normally having recorded exactly one failure: the
    missing-path message when the generator probe succeeds, and the
    generator-not-found message when the probe fails. *)
Theorem missing_path_reported_after_probe (env : Env) (inputs : TaskInputs) (w : World) :
  useCustomDoxyFile inputs = true ->
  truthy (customDoxyFilePath inputs) = false ->
  exists w', validateInputs env inputs w = (Ok tt, w') /\
    results (trace w')
    = results (trace w) ++
      match fst (os_exec env (lit "doxygen --version") w) with
      | Ok _ => [(Failed, MissingCustomPathMessage)]
      | Throw _ => [(Failed, loc env (lit "DoxygenNotFound") [])]
      end.
Proof.
  intros Hflag Hpath.
  unfold validateInputs, checkDoxygenInstallation. unfold_calls.
  rewrite Hflag, Hpath. simpl.
  destruct (os_exec env (lit "doxygen --version") w) as [[out|e] fs']; simpl;
    (eexists; split; [reflexivity|]); simpl; tidy_results; reflexivity.
Qed.

Lemma missing_path_reported_after_probe_witness :
  exists w', validateInputs healthyEnv customWithoutPath scenarioWorld = (Ok tt, w') /\
    results (trace w') = [(Failed, MissingCustomPathMessage)].
Proof.
  destruct (missing_path_reported_after_probe healthyEnv customWithoutPath scenarioWorld
              eq_refl eq_refl) as (w' & Hv & Hr).
  exists w'. split; [exact Hv|]. rewrite Hr. vm_compute. reflexivity.
Defined.

(** ** Publication *)

(** C7: [publishArtifacts] always returns normally and records no host
    result; a throwing upload leaves one warning in the trace.  [run]
    always returns normally, and whenever validation and generation have
    returned its last host result is the success result, whatever the
    upload did. *)
Theorem publication_failure_is_absorbed (env : Env) (inputs : TaskInputs) (w : World) :
  (exists w', publishArtifacts env inputs w = (Ok tt, w') /\
     results (trace w') = results (trace w) /\
     match fault env (uploadCall inputs) (publishing env w) with
     | Some e =>
         In (EvConsole Warn (lit "Failed to publish artifacts: " ++ e)) (trace w')
     | None => True
     end) /\
  (exists w', run env inputs w = (Ok tt, w') /\
     match validateInputs env inputs (started w) with
     | (Ok _, w1) =>
         match generateDocumentation env inputs w1 with
         | (Ok _, w2) =>
             results (trace w') = results (trace w2) ++ [(Succeeded, SuccessMessage)]
         | _ => True
         end
     | _ => True
     end).
Proof.
  split.
  - destruct (publishArtifacts_outcome env inputs w) as (w' & Hp & _ & _ & Hr & Ht).
    exists w'. repeat split; try assumption.
    destruct (fault env _ _) as [e|]; [|exact I].
    rewrite Ht. apply in_or_app. right. simpl. auto.
  - destruct (run_outcome env inputs w) as (w' & Hrun & Hres).
    exists w'. split; [exact Hrun|].
    destruct (validateInputs env inputs _) as [[u|e] w1]; [|exact I].
    destruct (generateDocumentation env inputs w1) as [[u2|e] w2]; [exact Hres|exact I].
Qed.

(** ** Generation *)

(** C9: whenever [generateDocumentation] returns, the working directory
    is the one it was called in, whatever the source directory is; and it
    returns only when the generator run on the temporary file resolved. *)
Theorem working_directory_restored (env : Env) (inputs : TaskInputs) (w w' : World) :
  generateDocumentation env inputs w = (Ok tt, w') ->
  cwd w' = cwd w /\
  exists wg out fs',
    os_exec env (generatorCommand (path_join env [sourceDirectory inputs; TempFileName])) wg
    = (Ok out, fs').
Proof.
  intros Hg. pose proof (generateDocumentation_outcome env inputs w) as H.
  rewrite Hg in H. destruct H as (Hc & _ & Hx). split; assumption.
Qed.

Lemma working_directory_restored_witness :
  cwd (snd (generateDocumentation healthyEnv autoInputs scenarioWorld)) = lit "/original".
Proof.
  destruct (working_directory_restored healthyEnv autoInputs scenarioWorld
              (snd (generateDocumentation healthyEnv autoInputs scenarioWorld)))
    as [H _].
  - vm_compute. reflexivity.
  - rewrite H. vm_compute. reflexivity.
Defined.

(** C10: with the custom file selected but no usable path,
    [generateDocumentation] behaves exactly as in auto mode: it reads no
    file, every configuration it writes is the synthesized template, and
    once the directory change succeeds the template is written to the
    temporary file in the source directory. *)
Theorem missing_path_falls_back_to_auto (env : Env) (inputs : TaskInputs) (w : World) :
  useCustomDoxyFile inputs = true ->
  truthy (customDoxyFilePath inputs) = false ->
  generateDocumentation env inputs w = generateDocumentation env (autoMode inputs) w /\
  exists evs,
    trace (snd (generateDocumentation env inputs w)) = trace w ++ evs /\
    (forall p, ~ In (EvReadFile p) evs) /\
    (forall p c, In (EvWriteFile p c) evs -> c = generateAutoDoxyfile inputs) /\
    match fault env (EvChdir (sourceDirectory inputs)) (announced inputs w) with
    | None =>
        In (EvWriteFile (path_join env [sourceDirectory inputs; TempFileName])
              (generateAutoDoxyfile inputs)) evs
    | Some _ => True
    end.
Proof.
  intros Hflag Hpath. split.
  - unfold generateDocumentation, autoMode; simpl. rewrite Hflag, Hpath. reflexivity.
  - unfold generateDocumentation, announced. unfold_calls.
    rewrite Hflag, Hpath. simpl.
    repeat case_step; simplify_eq; simpl;
      (eexists; split; [rewrite <- ?app_assoc; simpl; reflexivity|]);
      simpl; repeat split; try (intros; intuition (try discriminate; congruence));
      auto 20.
Qed.

Lemma missing_path_falls_back_to_auto_witness :
  generateDocumentation healthyEnv customWithoutPath scenarioWorld
  = generateDocumentation healthyEnv (autoMode customWithoutPath) scenarioWorld.
Proof.
  apply (missing_path_falls_back_to_auto healthyEnv customWithoutPath scenarioWorld
           eq_refl eq_refl).
Defined.

(** With a throwing upload the run still ends in the success result, and
    the warning is in the trace. *)
Example run_with_failing_upload :
  fst (run failingUploadEnv autoInputs scenarioWorld) = Ok tt /\
  results (trace (snd (run failingUploadEnv autoInputs scenarioWorld)))
  = [(Succeeded, SuccessMessage)] /\
  warnings (trace (snd (run failingUploadEnv autoInputs scenarioWorld)))
  = [lit "Failed to publish artifacts: Error: Upload failed"].
Proof. vm_compute. repeat split; reflexivity. Qed.

(** The inputs read from the host always carry a version. *)
Lemma getInputs_version (env : Env) (h : Host) (w : World) :
  truthy (projectVersion (getInputs env h w)) = true.
Proof.
  unfold getInputs, or_else; simpl.
  destruct (getInput h (lit "ProjectVersion")) as [[|c v]|]; try reflexivity;
    vm_compute; reflexivity.
Qed.

(** ** The custom-mode rewrite *)

Lemma lastCu_app (prev : option cu) (a b : jstr) :
  lastCu prev (a ++ b) = lastCu (lastCu prev a) b.
Proof. unfold lastCu. apply fold_left_app. Qed.

Lemma takeWhile_dropWhile (cls : cu -> bool) (s : jstr) :
  takeWhile cls s ++ dropWhile cls s = s.
Proof.
  induction s as [|c s IH]; simpl; [reflexivity|].
  destruct (cls c); simpl; [rewrite IH|]; reflexivity.
Qed.

Lemma takeWhile_all (cls : cu -> bool) (s : jstr) :
  forallb cls (takeWhile cls s) = true.
Proof.
  induction s as [|c s IH]; simpl; [reflexivity|].
  destruct (cls c) eqn:E; simpl; [rewrite E, IH|]; reflexivity.
Qed.

Lemma dropWhile_head (cls : cu -> bool) (s : jstr) :
  match dropWhile cls s with
  | c :: _ => cls c = false
  | [] => True
  end.
Proof.
  induction s as [|c s IH]; simpl; [exact I|].
  destruct (cls c) eqn:E; simpl; [exact IH|exact E].
Qed.

(** Reading a run of class members followed by something else. *)
Lemma takeWhile_app (cls : cu -> bool) (a rest : jstr) :
  forallb cls a = true ->
  match rest with c :: _ => cls c = false | [] => True end ->
  takeWhile cls (a ++ rest) = a /\ dropWhile cls (a ++ rest) = rest.
Proof.
  intros Ha Hr. induction a as [|c a IH]; simpl in *.
  - destruct rest as [|c r]; simpl; [auto|]. rewrite Hr. auto.
  - apply andb_prop in Ha as [Hc Ha]. rewrite Hc.
    destruct (IH Ha) as [-> ->]. auto.
Qed.

Lemma stripPrefix_Some (p s s1 : jstr) :
  stripPrefix p s = Some s1 <-> s = p ++ s1.
Proof.
  revert s. induction p as [|c p IH]; intros s; simpl.
  - split; intros H; congruence.
  - destruct s as [|x s]; [split; intros H; discriminate H|].
    destruct (N.eqb_spec x c) as [->|Hne].
    + rewrite IH. split; intros H; congruence.
    + split; intros H; [discriminate H|]. congruence.
Qed.

(** A greedy star whose continuation refuses every member of the class
    takes the longest run and never backtracks. *)
Lemma star_greedy (cls : cu -> bool) (k : cont) :
  (forall p1 p2 s, k p1 s = k p2 s) ->
  (forall p c s, cls c = true -> k p (c :: s) = None) ->
  forall prev s,
    star cls k prev s =
    match k prev (dropWhile cls s) with
    | Some (m, rest) => Some (takeWhile cls s ++ m, rest)
    | None => None
    end.
Proof.
  intros Hprev Hrefuse prev s. revert prev.
  induction s as [|c s IH]; intros prev; simpl.
  - destruct (k prev []) as [[m rest]|]; reflexivity.
  - destruct (cls c) eqn:E.
    + rewrite IH. rewrite (Hprev (Some c) prev).
      destruct (k prev (dropWhile cls s)) as [[m rest]|] eqn:Ek; [reflexivity|].
      apply Hrefuse, E.
    + simpl. destruct (k prev (c :: s)) as [[m rest]|]; reflexivity.
Qed.

Lemma matchAtoms_literal (lits : jstr) (r : list atom) (prev : option cu) (s : jstr) :
  (forall p1 p2 s', matchAtoms r p1 s' = matchAtoms r p2 s') ->
  matchAtoms (map Chr lits ++ r) prev s =
  match stripPrefix lits s with
  | Some s1 =>
      match matchAtoms r prev s1 with
      | Some (m, rest) => Some (lits ++ m, rest)
      | None => None
      end
  | None => None
  end.
Proof.
  intros Hprev. revert prev s. induction lits as [|c lits IH]; intros prev s; simpl.
  - destruct (matchAtoms r prev s) as [[m rest]|]; reflexivity.
  - destruct s as [|x s]; [reflexivity|].
    destruct (x =? c) eqn:E; [|reflexivity].
    apply N.eqb_eq in E as ->.
    change (fix app (l m : list atom) : list atom :=
              match l with [] => m | a :: l1 => a :: app l1 m end)
      with (@app atom).
    rewrite IH. destruct (stripPrefix lits s) as [s1|]; [|reflexivity].
    rewrite (Hprev (Some c) prev).
    destruct (matchAtoms r prev s1) as [[m rest]|]; reflexivity.
Qed.

Lemma whitespace_not_equals (c : cu) : isWhiteSpace c = true -> (c =? EQUALS) = false.
Proof.
  intros H. destruct (N.eqb_spec c EQUALS) as [->|]; [|reflexivity].
  vm_compute in H. discriminate H.
Qed.

(** The matcher on [/^OUTPUT_DIRECTORY\s*=.*$/m] is [matchDirective]. *)
Lemma matchAtoms_directive (prev : option cu) (s : jstr) :
  matchAtoms outputDirectoryRe prev s = matchDirective prev s.
Proof.
  unfold outputDirectoryRe, matchDirective.
  change (matchAtoms (Bol :: ?r) prev s)
    with (if atLineStart prev then matchAtoms r prev s else None).
  destruct (atLineStart prev); [|reflexivity].
  assert (Hend : forall p1 p2 s', matchAtoms [Eol] p1 s' = matchAtoms [Eol] p2 s')
    by reflexivity.
  assert (Hdot : forall p s',
             matchAtoms [Star isDot; Eol] p s'
             = Some (takeWhile isDot s', dropWhile isDot s')).
  { intros p s'. simpl matchAtoms at 1. rewrite star_greedy.
    - pose proof (dropWhile_head isDot s') as Hh. simpl.
      destruct (dropWhile isDot s') as [|c r]; simpl.
      + rewrite app_nil_r. reflexivity.
      + unfold isDot in Hh. apply negb_false_iff in Hh. rewrite Hh.
        rewrite app_nil_r. reflexivity.
    - exact Hend.
    - intros p0 c s0 Hc. simpl. unfold isDot in Hc.
      apply negb_true_iff in Hc. rewrite Hc. reflexivity. }
  assert (Heq : forall p s',
             matchAtoms [Chr EQUALS; Star isDot; Eol] p s'
             = match s' with
               | e :: s2 =>
                   if e =? EQUALS
                   then Some (EQUALS :: takeWhile isDot s2, dropWhile isDot s2)
                   else None
               | [] => None
               end).
  { intros p s'. destruct s' as [|e s2]; [reflexivity|].
    change (matchAtoms [Chr EQUALS; Star isDot; Eol] p (e :: s2))
      with (if e =? EQUALS
            then consMatch e (matchAtoms [Star isDot; Eol] (Some e) s2) else None).
    destruct (N.eqb_spec e EQUALS) as [->|]; [|reflexivity].
    rewrite Hdot. reflexivity. }
  assert (Hws : forall p s',
             matchAtoms [Star isWhiteSpace; Chr EQUALS; Star isDot; Eol] p s'
             = match dropWhile isWhiteSpace s' with
               | e :: s2 =>
                   if e =? EQUALS
                   then Some (takeWhile isWhiteSpace s' ++ EQUALS :: takeWhile isDot s2,
                              dropWhile isDot s2)
                   else None
               | [] => None
               end).
  { intros p s'.
    change (matchAtoms [Star isWhiteSpace; Chr EQUALS; Star isDot; Eol] p s')
      with (star isWhiteSpace (matchAtoms [Chr EQUALS; Star isDot; Eol]) p s').
    rewrite star_greedy.
    - rewrite Heq. destruct (dropWhile isWhiteSpace s') as [|e s2]; [reflexivity|].
      destruct (e =? EQUALS); reflexivity.
    - intros p1 p2 s0. rewrite !Heq. reflexivity.
    - intros p0 c s0 Hc. rewrite Heq. rewrite (whitespace_not_equals c Hc). reflexivity. }
  rewrite matchAtoms_literal.
  - destruct (stripPrefix OUTPUT_DIRECTORY s) as [s1|]; [|reflexivity].
    rewrite Hws. destruct (dropWhile isWhiteSpace s1) as [|e s2]; [reflexivity|].
    destruct (e =? EQUALS); reflexivity.
  - intros p1 p2 s'. rewrite !Hws. reflexivity.
Qed.

Lemma search_eq (r : list atom) (prev : option cu) (s : jstr) :
  search r prev s =
  match matchAtoms r prev s with
  | Some (m, post) => Some ([], m, post)
  | None =>
      match s with
      | [] => None
      | c :: s' =>
          match search r (Some c) s' with
          | Some (pre, m, post) => Some (c :: pre, m, post)
          | None => None
          end
      end
  end.
Proof. destruct s; reflexivity. Qed.

Lemma matchDirective_None (prev : option cu) (s : jstr) :
  matchDirective prev s = None <-> atLineStart prev && startsDirective s = false.
Proof.
  unfold matchDirective, startsDirective.
  destruct (atLineStart prev); simpl; [|tauto].
  destruct (stripPrefix OUTPUT_DIRECTORY s) as [s1|]; [|tauto].
  destruct (dropWhile isWhiteSpace s1) as [|e s2]; [tauto|].
  destruct (e =? EQUALS); split; intros H; congruence.
Qed.

Lemma matchDirective_Some (prev : option cu) (s m post : jstr) :
  matchDirective prev s = Some (m, post) ->
  atLineStart prev = true /\ s = m ++ post /\ isDirective m /\ atLineEnd post = true.
Proof.
  unfold matchDirective. intros H.
  destruct (atLineStart prev); [|discriminate H].
  destruct (stripPrefix OUTPUT_DIRECTORY s) as [s1|] eqn:Es; [|discriminate H].
  apply stripPrefix_Some in Es.
  pose proof (takeWhile_dropWhile isWhiteSpace s1) as Hs1.
  destruct (dropWhile isWhiteSpace s1) as [|e s2]; [discriminate H|].
  destruct (N.eqb_spec e EQUALS) as [->|]; [|discriminate H].
  injection H as <- <-.
  pose proof (takeWhile_dropWhile isDot s2) as Hs2.
  pose proof (dropWhile_head isDot s2) as Hh.
  repeat split.
  - rewrite Es. rewrite <- Hs1 at 1. rewrite <- Hs2 at 1.
    rewrite <- ?app_assoc. simpl. rewrite <- ?app_assoc. reflexivity.
  - exists (takeWhile isWhiteSpace s1), (takeWhile isDot s2).
    repeat split; apply takeWhile_all.
  - destruct (dropWhile isDot s2) as [|c r]; [reflexivity|].
    simpl. unfold isDot in Hh. apply negb_false_iff in Hh. exact Hh.
Qed.

Lemma startsDirective_true (ws tail : jstr) :
  forallb isWhiteSpace ws = true ->
  startsDirective (OUTPUT_DIRECTORY ++ ws ++ EQUALS :: tail) = true.
Proof.
  intros Hws. unfold startsDirective.
  assert (Hs : stripPrefix OUTPUT_DIRECTORY (OUTPUT_DIRECTORY ++ ws ++ EQUALS :: tail)
               = Some (ws ++ EQUALS :: tail)) by (apply stripPrefix_Some; reflexivity).
  rewrite Hs.
  destruct (takeWhile_app isWhiteSpace ws (EQUALS :: tail) Hws) as [_ ->];
    [reflexivity|]. apply N.eqb_refl.
Qed.

Lemma matchDirective_None_no_directive (pre : jstr) (prev : option cu) (rest : jstr) :
  matchDirective (lastCu prev pre) rest = None ->
  prev = None ->
  ~ directiveStartsAt pre rest.
Proof.
  intros Hm -> [Hstart (ws & tail & -> & Hws)].
  apply matchDirective_None in Hm.
  rewrite Hstart in Hm. rewrite (startsDirective_true ws tail Hws) in Hm.
  discriminate Hm.
Qed.

(** What [search] finds on the pattern of the task. *)
Lemma search_spec (s : jstr) : forall prev,
  match search outputDirectoryRe prev s with
  | Some (pre, m, post) =>
      s = pre ++ m ++ post /\
      matchDirective (lastCu prev pre) (m ++ post) = Some (m, post) /\
      forall p1 p2, pre = p1 ++ p2 -> p2 <> [] ->
        matchDirective (lastCu prev p1) (p2 ++ m ++ post) = None
  | None =>
      forall p1 p2, s = p1 ++ p2 -> matchDirective (lastCu prev p1) p2 = None
  end.
Proof.
  induction s as [|c s IH]; intros prev; rewrite search_eq, matchAtoms_directive.
  - destruct (matchDirective prev []) as [[m post]|] eqn:Em.
    + destruct (matchDirective_Some _ _ _ _ Em) as (_ & Hs & _).
      repeat split; [exact Hs | simpl; rewrite <- Hs; exact Em |].
      intros p1 p2 Hp Hne. symmetry in Hp. apply app_eq_nil in Hp as [_ ->].
      contradiction.
    + intros p1 p2 Hp. symmetry in Hp. apply app_eq_nil in Hp as [-> ->]. exact Em.
  - destruct (matchDirective prev (c :: s)) as [[m post]|] eqn:Em.
    + destruct (matchDirective_Some _ _ _ _ Em) as (_ & Hs & _).
      repeat split; [exact Hs | simpl; rewrite <- Hs; exact Em |].
      intros p1 p2 Hp Hne. symmetry in Hp. apply app_eq_nil in Hp as [_ ->].
      contradiction.
    + specialize (IH (Some c)).
      destruct (search outputDirectoryRe (Some c) s) as [[[pre m] post]|].
      * destruct IH as (Hs & Hm & Hfirst). repeat split.
        -- simpl. rewrite Hs. reflexivity.
        -- exact Hm.
        -- intros p1 p2 Hp Hne. destruct p1 as [|x p1]; simpl in Hp.
           ++ subst p2. simpl. rewrite <- Hs. exact Em.
           ++ injection Hp as <- ->. apply (Hfirst p1 p2 eq_refl Hne).
      * intros p1 p2 Hp. destruct p1 as [|x p1]; simpl in Hp.
        -- subst p2. exact Em.
        -- injection Hp as <- ->. apply (IH p1 p2 eq_refl).
Qed.

(** Reading a literal without line terminators across a line break
    either fails or stops before the break, whatever follows it. *)
Lemma stripPrefix_before_break (lits q : jstr) (t : cu) (Y1 Y2 : jstr) :
  forallb isDot lits = true ->
  isLineTerminator t = true ->
  (stripPrefix lits (q ++ t :: Y1) = None /\ stripPrefix lits (q ++ t :: Y2) = None) \/
  exists q', stripPrefix lits (q ++ t :: Y1) = Some (q' ++ t :: Y1) /\
             stripPrefix lits (q ++ t :: Y2) = Some (q' ++ t :: Y2).
Proof.
  intros Hl Ht. revert q. induction lits as [|l lits IH]; intros q; simpl.
  - right. exists q. auto.
  - simpl in Hl. apply andb_prop in Hl as [Hl Hls].
    destruct q as [|a q]; simpl.
    + destruct (N.eqb_spec t l) as [->|]; [|auto].
      unfold isDot in Hl. rewrite Ht in Hl. discriminate Hl.
    + destruct (a =? l); [apply IH, Hls|auto].
Qed.

Lemma dropWhile_before_break (q : jstr) (t o : cu) (Y1 Y2 : jstr) :
  isLineTerminator t = true ->
  isWhiteSpace o = false ->
  match dropWhile isWhiteSpace (q ++ t :: o :: Y1) with
  | e :: _ => e =? EQUALS
  | [] => false
  end
  = match dropWhile isWhiteSpace (q ++ t :: o :: Y2) with
    | e :: _ => e =? EQUALS
    | [] => false
    end.
Proof.
  intros Ht Ho.
  assert (Hw : isWhiteSpace t = true).
  { unfold isWhiteSpace. rewrite Ht. apply orb_true_r. }
  induction q as [|a q IH]; simpl.
  - rewrite Hw, Ho. reflexivity.
  - destruct (isWhiteSpace a); [exact IH|reflexivity].
Qed.

Lemma OUTPUT_DIRECTORY_head : exists rest, OUTPUT_DIRECTORY = 79 :: rest.
Proof. eexists. vm_compute. reflexivity. Qed.

(** Whether a directive starts before a line break does not depend on
    what follows a directive name after the break. *)
Lemma startsDirective_before_break (q : jstr) (t : cu) (X1 X2 : jstr) :
  isLineTerminator t = true ->
  startsDirective (q ++ t :: OUTPUT_DIRECTORY ++ X1)
  = startsDirective (q ++ t :: OUTPUT_DIRECTORY ++ X2).
Proof.
  intros Ht. unfold startsDirective.
  destruct (stripPrefix_before_break OUTPUT_DIRECTORY q t
              (OUTPUT_DIRECTORY ++ X1) (OUTPUT_DIRECTORY ++ X2))
    as [[-> ->]|(q' & -> & ->)]; [vm_compute; reflexivity | exact Ht | reflexivity |].
  destruct OUTPUT_DIRECTORY_head as [rest ->]. simpl.
  apply dropWhile_before_break; [exact Ht | vm_compute; reflexivity].
Qed.

(** The replacement line, with an output directory free of line
    terminators, is itself matched whole at a line start. *)
Lemma matchDirective_replacement (prev : option cu) (outdir post : jstr) :
  atLineStart prev = true ->
  atLineEnd post = true ->
  forallb isDot outdir = true ->
  matchDirective prev ((OUTPUT_DIRECTORY ++ SPACE :: EQUALS :: SPACE :: outdir) ++ post)
  = Some (OUTPUT_DIRECTORY ++ SPACE :: EQUALS :: SPACE :: outdir, post).
Proof.
  intros Hstart Hend Hout. unfold matchDirective. rewrite Hstart.
  assert (Hs : stripPrefix OUTPUT_DIRECTORY
                 ((OUTPUT_DIRECTORY ++ SPACE :: EQUALS :: SPACE :: outdir) ++ post)
               = Some (SPACE :: EQUALS :: SPACE :: outdir ++ post)).
  { apply stripPrefix_Some. rewrite <- app_assoc. reflexivity. }
  rewrite Hs.
  change (dropWhile isWhiteSpace (SPACE :: EQUALS :: SPACE :: outdir ++ post))
    with (EQUALS :: SPACE :: outdir ++ post).
  change (takeWhile isWhiteSpace (SPACE :: EQUALS :: SPACE :: outdir ++ post))
    with [SPACE].
  cbv beta iota. change (EQUALS =? EQUALS) with true. cbv iota.
  destruct (takeWhile_app isDot (SPACE :: outdir) post) as [Ht Hd].
  - simpl. exact Hout.
  - destruct post as [|c r]; [exact I|]. simpl in Hend. unfold isDot.
    rewrite Hend. reflexivity.
  - change (SPACE :: outdir ++ post) with ((SPACE :: outdir) ++ post).
    rewrite Ht, Hd. reflexivity.
Qed.

Lemma lastCu_snoc (prev : option cu) (q : jstr) (t : cu) :
  lastCu prev (q ++ [t]) = Some t.
Proof. rewrite lastCu_app. reflexivity. Qed.

(** After the first directive has been replaced by the replacement line,
    the search finds that line, at the same place. *)
Lemma search_replaced (outdir m post : jstr) :
  forallb isDot outdir = true ->
  forall pre prev,
    matchDirective (lastCu prev pre) (m ++ post) = Some (m, post) ->
    (forall p1 p2, pre = p1 ++ p2 -> p2 <> [] ->
       matchDirective (lastCu prev p1) (p2 ++ m ++ post) = None) ->
    search outputDirectoryRe prev
      (pre ++ (OUTPUT_DIRECTORY ++ SPACE :: EQUALS :: SPACE :: outdir) ++ post)
    = Some (pre, OUTPUT_DIRECTORY ++ SPACE :: EQUALS :: SPACE :: outdir, post).
Proof.
  intros Hout pre. induction pre as [|c pre IH]; intros prev Hm Hfirst;
    rewrite search_eq, matchAtoms_directive.
  - destruct (matchDirective_Some _ _ _ _ Hm) as (Hstart & _ & _ & Hend).
    simpl in Hstart. simpl app at 1.
    rewrite (matchDirective_replacement prev outdir post Hstart Hend Hout).
    reflexivity.
  - destruct (matchDirective_Some _ _ _ _ Hm) as (Hstart & _ & Hdir & _).
    destruct Hdir as (ws & val & -> & _ & _).
    assert (Hnone : matchDirective prev
              ((c :: pre) ++ (OUTPUT_DIRECTORY ++ SPACE :: EQUALS :: SPACE :: outdir)
                 ++ post) = None).
    { destruct (exists_last (l := c :: pre)) as (q & t & Hq); [discriminate|].
      rewrite Hq in Hstart |- *. rewrite lastCu_snoc in Hstart. simpl in Hstart.
      apply matchDirective_None.
      specialize (Hfirst [] (c :: pre) eq_refl ltac:(discriminate)).
      apply matchDirective_None in Hfirst. simpl lastCu in Hfirst.
      rewrite Hq in Hfirst.
      rewrite <- !app_assoc in Hfirst |- *. simpl in Hfirst |- *.
      rewrite <- Hfirst. f_equal.
      apply (startsDirective_before_break q t _ _ Hstart). }
    rewrite Hnone.
    change ((c :: pre) ++ ?x) with (c :: pre ++ x). cbv iota.
    rewrite (IH (Some c)).
    + reflexivity.
    + exact Hm.
    + intros p1 p2 Hp Hne. apply (Hfirst (c :: p1) p2); [rewrite Hp; reflexivity|exact Hne].
Qed.

Lemma patternFree_app (p t : jstr) :
  forallb (fun c => negb (c =? DOLLAR)) p = true ->
  patternFree (p ++ t) = patternFree t.
Proof.
  induction p as [|c p IH]; simpl; [reflexivity|].
  intros H. apply andb_prop in H as [Hc Hp].
  apply negb_true_iff in Hc. rewrite Hc. apply IH, Hp.
Qed.

(** A pattern-free template is substituted as it is. *)
Lemma GetSubstitution_patternFree (matched pre post t : jstr) :
  patternFree t = true -> GetSubstitution matched pre post t = t.
Proof.
  induction t as [|c t IH]; [reflexivity|].
  intros H. simpl in H. simpl GetSubstitution.
  destruct (c =? DOLLAR).
  - destruct t as [|d t']; [reflexivity|].
    apply andb_prop in H as [Hd Ht].
    apply negb_true_iff in Hd.
    apply orb_false_elim in Hd as [Hd Hq].
    apply orb_false_elim in Hd as [Hd Ha].
    apply orb_false_elim in Hd as [Hd Hb].
    rewrite Hd, Hb, Ha, Hq. f_equal. apply IH, Ht.
  - f_equal. apply IH, H.
Qed.

Lemma template_shape (outdir : jstr) :
  lit "OUTPUT_DIRECTORY = " ++ outdir
  = OUTPUT_DIRECTORY ++ SPACE :: EQUALS :: SPACE :: outdir.
Proof.
  assert (H : lit "OUTPUT_DIRECTORY = " = OUTPUT_DIRECTORY ++ [SPACE; EQUALS; SPACE])
    by (vm_compute; reflexivity).
  rewrite H, <- app_assoc. reflexivity.
Qed.

Lemma template_patternFree (outdir : jstr) :
  patternFree outdir = true ->
  patternFree (lit "OUTPUT_DIRECTORY = " ++ outdir) = true.
Proof.
  intros H. rewrite patternFree_app; [exact H|]. vm_compute. reflexivity.
Qed.

(** C5, as stated, fails: an output directory that holds a replacement
    pattern is not written as it is, and a second application changes the
    text again. *)
Lemma replacement_patterns_are_expanded :
  patchOutputDirectory (lit "/out/$&") (lit "OUTPUT_DIRECTORY = /old")
  = lit "OUTPUT_DIRECTORY = /out/OUTPUT_DIRECTORY = /old" /\
  patchOutputDirectory (lit "/out/$&") (lit "OUTPUT_DIRECTORY = /old")
  <> lit "OUTPUT_DIRECTORY = " ++ lit "/out/$&" /\
  patchOutputDirectory (lit "/out/$&")
    (patchOutputDirectory (lit "/out/$&") (lit "OUTPUT_DIRECTORY = /old"))
  <> patchOutputDirectory (lit "/out/$&") (lit "OUTPUT_DIRECTORY = /old").
Proof.
  split; [|split].
  - vm_compute. reflexivity.
  - vm_compute. intros H. discriminate H.
  - vm_compute. intros H. discriminate H.
Qed.

(** C5, amended: for an output directory without replacement patterns,
    a text without a directive is left as it is, and otherwise exactly the
    first directive (at a line start: OUTPUT_DIRECTORY, optional white space
    that may include line breaks, an equals sign and the rest of that line)
    is replaced by [OUTPUT_DIRECTORY = <output directory>], the text before
    and after it being kept; when the output directory also holds no line
    terminator, patching twice gives the same text as patching once. *)
Theorem patch_replaces_first_directive (outdir text : jstr) :
  patternFree outdir = true ->
  ((noDirective text /\ patchOutputDirectory outdir text = text) \/
   (exists pre m post,
      firstDirective text pre m post /\
      patchOutputDirectory outdir text
      = pre ++ (lit "OUTPUT_DIRECTORY = " ++ outdir) ++ post)) /\
  (forallb isDot outdir = true ->
   patchOutputDirectory outdir (patchOutputDirectory outdir text)
   = patchOutputDirectory outdir text).
Proof.
  intros Hfree. unfold patchOutputDirectory, replace.
  pose proof (search_spec text None) as Hspec.
  destruct (search outputDirectoryRe None text) as [[[pre m] post]|] eqn:Es.
  - destruct Hspec as (Htext & Hm & Hfirst).
    rewrite (GetSubstitution_patternFree _ _ _ _ (template_patternFree _ Hfree)).
    split.
    + right. exists pre, m, post. split; [|reflexivity].
      destruct (matchDirective_Some _ _ _ _ Hm) as (Hstart & _ & Hdir & Hend).
      repeat split; try assumption.
      intros p1 p2 Hp Hne.
      apply (matchDirective_None_no_directive p1 None); [|reflexivity].
      apply Hfirst; assumption.
    + intros Hout. rewrite template_shape.
      rewrite (search_replaced outdir m post Hout pre None Hm Hfirst).
      rewrite <- template_shape.
      rewrite (GetSubstitution_patternFree _ _ _ _ (template_patternFree _ Hfree)).
      reflexivity.
  - split.
    + left. split; [|reflexivity].
      intros p1 p2 Hp.
      apply (matchDirective_None_no_directive p1 None); [|reflexivity].
      apply Hspec, Hp.
    + intros _. rewrite Es. reflexivity.
Qed.

Lemma patch_replaces_first_directive_witness :
  patchOutputDirectory (lit "/test/output")
    (patchOutputDirectory (lit "/test/output")
       (lit "# Sample Doxyfile content" ++ [LF] ++ lit "OUTPUT_DIRECTORY = /old/path"))
  = patchOutputDirectory (lit "/test/output")
      (lit "# Sample Doxyfile content" ++ [LF] ++ lit "OUTPUT_DIRECTORY = /old/path").
Proof.
  destruct (patch_replaces_first_directive (lit "/test/output")
              (lit "# Sample Doxyfile content" ++ [LF] ++ lit "OUTPUT_DIRECTORY = /old/path"))
    as [_ H].
  - vm_compute. reflexivity.
  - apply H. vm_compute. reflexivity.
Defined.

(** The configuration of the test suite, patched. *)
Example patch_scenario :
  patchOutputDirectory (lit "/test/output")
    (lit "# Sample Doxyfile content" ++ [LF] ++ lit "OUTPUT_DIRECTORY = /old/path")
  = lit "# Sample Doxyfile content" ++ [LF] ++ lit "OUTPUT_DIRECTORY = /test/output".
Proof. vm_compute. reflexivity. Qed.

(** Only the first directive is rewritten; an indented one is none. *)
Example patch_first_only :
  patchOutputDirectory (lit "/out")
    (lit "  OUTPUT_DIRECTORY = a" ++ [LF] ++ lit "OUTPUT_DIRECTORY=b" ++ [CR; LF]
       ++ lit "OUTPUT_DIRECTORY = c")
  = lit "  OUTPUT_DIRECTORY = a" ++ [LF] ++ lit "OUTPUT_DIRECTORY = /out" ++ [CR; LF]
      ++ lit "OUTPUT_DIRECTORY = c".
Proof. vm_compute. reflexivity. Qed.

(** The white space before the equals sign may run over line breaks, and
    the directive then spans several lines. *)
Example patch_across_lines :
  patchOutputDirectory (lit "/out")
    (lit "OUTPUT_DIRECTORY" ++ [LF] ++ lit "= /old" ++ [LF] ++ lit "INPUT = src")
  = lit "OUTPUT_DIRECTORY = /out" ++ [LF] ++ lit "INPUT = src".
Proof. vm_compute. reflexivity. Qed.

(** Without a directive nothing is inserted. *)
Example patch_no_directive :
  patchOutputDirectory (lit "/out") (lit "INPUT = src") = lit "INPUT = src".
Proof. vm_compute. reflexivity. Qed.

(** A doubled dollar sign in the output directory comes out single. *)
Example patch_doubled_dollar :
  patchOutputDirectory (lit "/out/$$x") (lit "OUTPUT_DIRECTORY = /old")
  = lit "OUTPUT_DIRECTORY = /out/$x".
Proof. vm_compute. reflexivity. Qed.

(** A line break in the output directory makes the second patch differ
    from the first. *)
Example patch_line_break_not_idempotent :
  patchOutputDirectory (lit "a" ++ [LF] ++ lit "b") (lit "OUTPUT_DIRECTORY = x")
  = lit "OUTPUT_DIRECTORY = a" ++ [LF] ++ lit "b" /\
  patchOutputDirectory (lit "a" ++ [LF] ++ lit "b")
    (patchOutputDirectory (lit "a" ++ [LF] ++ lit "b") (lit "OUTPUT_DIRECTORY = x"))
  = lit "OUTPUT_DIRECTORY = a" ++ [LF] ++ lit "b" ++ [LF] ++ lit "b".
Proof. vm_compute. split; reflexivity. Qed.

(** ** The synthesized configuration *)

Lemma includes_skip (h t needle : jstr) :
  includes t needle -> includes (h ++ t) needle.
Proof.
  intros (pre & post & ->). exists (h ++ pre), post.
  rewrite <- app_assoc. reflexivity.
Qed.

Lemma includes_starts (t needle : jstr) :
  (exists post, t = needle ++ post) -> includes t needle.
Proof. intros [post ->]. exists [], post. reflexivity. Qed.

Lemma starts_app (a needle t : jstr) :
  (exists post, t = needle ++ post) ->
  exists post, a ++ t = (a ++ needle) ++ post.
Proof. intros [post ->]. exists post. rewrite <- app_assoc. reflexivity. Qed.

Lemma starts_last (a t : jstr) : exists post, a ++ t = a ++ post.
Proof. exists t. reflexivity. Qed.

Ltac find_line :=
  first [ solve [apply includes_starts; repeat apply starts_app; apply starts_last]
        | apply includes_skip; find_line ].

(** C6: the auto-mode configuration holds, each on a line of its own,
    the project name, the project version (1.0 when the version is absent
    or empty), the source file pattern, the source directory and the
    output directory, as given. *)
Theorem auto_config_contains_inputs (inputs : TaskInputs) :
  let text := generateAutoDoxyfile inputs in
  includes text
    ([LF] ++ lit "PROJECT_NAME           = " ++ [DQUOTE] ++ projectName inputs
       ++ [DQUOTE] ++ [LF]) /\
  includes text
    ([LF] ++ lit "PROJECT_NUMBER         = " ++ [DQUOTE]
       ++ match projectVersion inputs with
          | Some (c :: v) => c :: v
          | _ => lit "1.0"
          end
       ++ [DQUOTE] ++ [LF]) /\
  includes text ([LF] ++ lit "FILE_PATTERNS          = " ++ sourceFilePattern inputs ++ [LF]) /\
  includes text ([LF] ++ lit "INPUT                  = " ++ sourceDirectory inputs ++ [LF]) /\
  includes text ([LF] ++ lit "OUTPUT_DIRECTORY       = " ++ outputDirectory inputs ++ [LF]).
Proof.
  unfold generateAutoDoxyfile, or_else. cbv zeta.
  repeat split; find_line.
Qed.

Lemma includesb_sound (hay needle : jstr) :
  includesb hay needle = true -> includes hay needle.
Proof.
  induction hay as [|c hay IH]; simpl.
  - destruct (stripPrefix needle []) as [post|] eqn:E; [|discriminate].
    intros _. apply stripPrefix_Some in E. exists [], post. exact E.
  - destruct (stripPrefix needle (c :: hay)) as [post|] eqn:E.
    + intros _. apply stripPrefix_Some in E. exists [], post. exact E.
    + intros H. destruct (IH H) as (pre & post & ->). exists (c :: pre), post.
      reflexivity.
Qed.

(** The scenario of the test suite. *)
Example auto_config_scenario :
  includes (generateAutoDoxyfile autoInputs)
    (lit "PROJECT_NAME           = " ++ [DQUOTE] ++ lit "Test Project" ++ [DQUOTE]) /\
  includes (generateAutoDoxyfile autoInputs)
    (lit "PROJECT_NUMBER         = " ++ [DQUOTE] ++ lit "1.0.0" ++ [DQUOTE]) /\
  includes (generateAutoDoxyfile autoInputs) (lit "FILE_PATTERNS          = *.cpp *.h") /\
  includes (generateAutoDoxyfile autoInputs) (lit "INPUT                  = /test/source") /\
  includes (generateAutoDoxyfile autoInputs) (lit "OUTPUT_DIRECTORY       = /test/output").
Proof.
  repeat split; apply includesb_sound; vm_compute; reflexivity.
Qed.

(** The version falls back to 1.0 when it is absent. *)
Example auto_config_default_version :
  includes
    (generateAutoDoxyfile
       {| sourceDirectory := lit "/test/source"; outputDirectory := lit "/test/output";
          projectName := lit "Test Project"; projectVersion := None;
          sourceFilePattern := lit "*.cpp *.h"; useCustomDoxyFile := false;
          customDoxyFilePath := None |})
    (lit "PROJECT_NUMBER         = " ++ [DQUOTE] ++ lit "1.0" ++ [DQUOTE]).
Proof. apply includesb_sound. vm_compute. reflexivity. Qed.

(** ** Further properties of validation *)

Lemma omap_snoc {A B} (f : A -> option B) (l : list A) (x : A) :
  omap f (l ++ [x]) = omap f l ++ match f x with Some y => [y] | None => [] end.
Proof. rewrite omap_app. simpl. destruct (f x); reflexivity. Qed.

Lemma nonConsole_app (t1 t2 : list Event) :
  nonConsole (t1 ++ t2) = nonConsole t1 ++ nonConsole t2.
Proof.
  induction t1 as [|ev t1 IH]; simpl; [reflexivity|].
  destruct ev; simpl; rewrite ?IH; reflexivity.
Qed.

Ltac flatten_trace := rewrite <- ?app_assoc; simpl.

(** X1: when the generator is missing, validation does nothing after the
    probe but log the error and record the failure: no path is checked and
    no directory is created. *)
Theorem validation_stops_at_missing_generator (env : Env) (inputs : TaskInputs)
    (w : World) (e : jstr) (fs1 : FileSystem) :
  os_exec env (lit "doxygen --version") w = (Throw e, fs1) ->
  validateInputs env inputs w
  = (Ok tt,
     {| cwd := cwd w; fs := fs1;
        trace := trace w ++
          [EvExec (lit "doxygen --version");
           EvConsole Error (lit "Doxygen not found in PATH");
           EvSetResult Failed (loc env (lit "DoxygenNotFound") [])] |}).
Proof.
  intros Hx. unfold validateInputs, checkDoxygenInstallation. unfold_calls.
  rewrite Hx. simpl. flatten_trace. reflexivity.
Qed.

Lemma validation_stops_at_missing_generator_witness :
  nonConsole (trace (snd (validateInputs noGeneratorEnv customInputs scenarioWorld)))
  = [EvExec (lit "doxygen --version"); EvSetResult Failed (lit "DoxygenNotFound: ")].
Proof.
  rewrite (validation_stops_at_missing_generator noGeneratorEnv customInputs scenarioWorld
             (lit "Error: Command not found") (fs scenarioWorld)).
  - vm_compute. reflexivity.
  - vm_compute. reflexivity.
Defined.

(** X2: with the generator present, the custom file selected and a path
    given, a path that resolves (from the source directory) to nothing on
    disk makes validation record the config-file-not-found failure with the
    resolved path, return normally, and create no directory. *)
Theorem missing_config_file_is_reported (env : Env) (inputs : TaskInputs)
    (w : World) (out : jstr * jstr) (fs1 : FileSystem) :
  os_exec env (lit "doxygen --version") w = (Ok out, fs1) ->
  customMode inputs = true ->
  files fs1 !! path_resolve env (cwd w)
                 [sourceDirectory inputs; render (customDoxyFilePath inputs)] = None ->
  path_resolve env (cwd w) [sourceDirectory inputs; render (customDoxyFilePath inputs)]
    ∉ dirs fs1 ->
  exists w', validateInputs env inputs w = (Ok tt, w') /\
    fs w' = fs1 /\
    nonConsole (trace w')
    = nonConsole (trace w) ++
      [EvExec (lit "doxygen --version");
       EvPathExists (path_resolve env (cwd w)
                       [sourceDirectory inputs; render (customDoxyFilePath inputs)]);
       EvSetResult Failed
         (loc env (lit "ConfigFileNotFound")
            [path_resolve env (cwd w)
               [sourceDirectory inputs; render (customDoxyFilePath inputs)]])].
Proof.
  intros Hx Hmode Hfile Hdir. unfold customMode in Hmode.
  unfold validateInputs, checkDoxygenInstallation. unfold_calls.
  rewrite Hx. simpl. rewrite Hmode. simpl. rewrite Hfile.
  rewrite (bool_decide_eq_false_2 _ (is_Some_None (A := jstr))).
  rewrite (bool_decide_eq_false_2 _ Hdir). simpl.
  eexists; split; [reflexivity|]. simpl. split; [reflexivity|].
  rewrite !nonConsole_app. simpl. rewrite <- ?app_assoc, ?app_nil_r. reflexivity.
Qed.

Lemma missing_config_file_is_reported_witness :
  exists w', validateInputs healthyEnv customInputs scenarioWorld = (Ok tt, w') /\
    nonConsole (trace w')
    = [EvExec (lit "doxygen --version");
       EvPathExists (lit "/test/custom/doxyfile");
       EvSetResult Failed (lit "ConfigFileNotFound: /test/custom/doxyfile")].
Proof.
  destruct (missing_config_file_is_reported healthyEnv customInputs scenarioWorld
              (lit "doxygen 1.9.1", []) (fs scenarioWorld))
    as (w' & Hv & _ & Ht).
  - vm_compute. reflexivity.
  - vm_compute. reflexivity.
  - vm_compute. reflexivity.
  - apply (bool_decide_unpack _). vm_compute. reflexivity.
  - exists w'. split; [exact Hv|]. rewrite Ht. vm_compute. reflexivity.
Defined.

(** X3: validation throws only when creating the output directory fails,
    with that failure's error, and it has then recorded no host result. *)
Theorem validation_throws_only_from_ensureDir (env : Env) (inputs : TaskInputs)
    (w w' : World) (e : jstr) :
  validateInputs env inputs w = (Throw e, w') ->
  results (trace w') = results (trace w) /\
  exists w0, fault env (EvEnsureDir (outputDirectory inputs)) w0 = Some e.
Proof.
  unfold validateInputs, checkDoxygenInstallation. unfold_calls. simpl.
  repeat case_step; intros H; simplify_eq; simpl; tidy_results;
    rewrite ?app_nil_r; eauto.
Qed.

Lemma validation_throws_only_from_ensureDir_witness :
  results (trace (snd (validateInputs readOnlyEnv autoInputs scenarioWorld))) = [] /\
  exists w0,
    fault readOnlyEnv (EvEnsureDir (lit "/test/output")) w0
    = Some (lit "Error: EACCES: permission denied").
Proof.
  apply (validation_throws_only_from_ensureDir readOnlyEnv autoInputs scenarioWorld
           (snd (validateInputs readOnlyEnv autoInputs scenarioWorld))).
  vm_compute. reflexivity.
Defined.


(** X5: when the generator is present, the configuration is consistent
    (auto mode, or a custom file that exists) and the output directory can
    be created, validation returns normally without a host result and the
    output directory exists afterwards. *)
Theorem validation_passes (env : Env) (inputs : TaskInputs)
    (w : World) (out : jstr * jstr) (fs1 : FileSystem) :
  os_exec env (lit "doxygen --version") w = (Ok out, fs1) ->
  (useCustomDoxyFile inputs = false \/
   (customMode inputs = true /\
    is_Some (files fs1 !! path_resolve env (cwd w)
               [sourceDirectory inputs; render (customDoxyFilePath inputs)]))) ->
  (forall w0, fault env (EvEnsureDir (outputDirectory inputs)) w0 = None) ->
  exists w', validateInputs env inputs w = (Ok tt, w') /\
    results (trace w') = results (trace w) /\
    outputDirectory inputs ∈ dirs (fs w').
Proof.
  intros Hx Hcfg Hdir. unfold customMode in Hcfg.
  unfold validateInputs, checkDoxygenInstallation. unfold_calls.
  rewrite Hx. simpl.
  destruct Hcfg as [Hauto|[Hmode Hfile]].
  - rewrite Hauto. simpl. rewrite Hdir.
    eexists; split; [reflexivity|]. simpl. tidy_results. rewrite app_nil_r.
    split; [reflexivity|set_solver].
  - rewrite Hmode. simpl. rewrite (bool_decide_eq_true_2 _ Hfile). simpl.
    apply andb_prop in Hmode as [Hflag Hpath]. rewrite Hflag, Hpath. simpl.
    rewrite Hdir.
    eexists; split; [reflexivity|]. simpl. tidy_results. rewrite app_nil_r.
    split; [reflexivity|set_solver].
Qed.

Lemma validation_passes_witness :
  lit "/test/output"
    ∈ dirs (fs (snd (validateInputs healthyEnv customInputs scenarioWorldWithConfig))).
Proof.
  destruct (validation_passes healthyEnv customInputs scenarioWorldWithConfig
              (lit "doxygen 1.9.1", []) (fs scenarioWorldWithConfig))
    as (w' & Hv & _ & Hd).
  - vm_compute. reflexivity.
  - right. split; [vm_compute; reflexivity|].
    apply (bool_decide_unpack _). vm_compute. reflexivity.
  - intros w0. reflexivity.
  - rewrite Hv. exact Hd.
Defined.

(** ** Further properties of generation *)

(** X6: [generateDocumentation] records a host result exactly when it
    throws: nothing on a normal return, and one failure carrying the thrown
    error otherwise. *)
Theorem generation_reports_when_it_throws (env : Env) (inputs : TaskInputs) (w : World) :
  results (trace (snd (generateDocumentation env inputs w)))
  = results (trace w) ++
    match fst (generateDocumentation env inputs w) with
    | Ok _ => []
    | Throw e => [(Failed, GenerationFailed e)]
    end.
Proof.
  pose proof (generateDocumentation_outcome env inputs w) as H.
  destruct (generateDocumentation env inputs w) as [[u|e] w']; simpl.
  - rewrite app_nil_r. apply H.
  - exact H.
Qed.









(** ** Further properties of the whole run *)

Lemma generateDocumentation_results (env : Env) (inputs : TaskInputs) (w : World) :
  results (trace (snd (generateDocumentation env inputs w)))
  = results (trace w) ++
    match fst (generateDocumentation env inputs w) with
    | Ok _ => []
    | Throw e => [(Failed, GenerationFailed e)]
    end.
Proof.
  pose proof (generateDocumentation_outcome env inputs w) as H.
  destruct (generateDocumentation env inputs w) as [[u|e] w']; simpl.
  - rewrite app_nil_r. apply H.
  - exact H.
Qed.

(** What validation and generation add to the trace holds no upload. *)
Lemma validateInputs_trace (env : Env) (inputs : TaskInputs) (w : World) :
  exists evs,
    trace (snd (validateInputs env inputs w)) = trace w ++ evs /\ uploads evs = [].
Proof.
  unfold validateInputs, checkDoxygenInstallation. unfold_calls. simpl.
  repeat case_step; simplify_eq; simpl;
    (eexists; split; [flatten_trace; reflexivity|]); reflexivity.
Qed.

Lemma generateDocumentation_trace (env : Env) (inputs : TaskInputs) (w : World) :
  exists evs,
    trace (snd (generateDocumentation env inputs w)) = trace w ++ evs /\ uploads evs = [].
Proof.
  unfold generateDocumentation. unfold_calls. simpl.
  repeat case_step; simplify_eq; simpl;
    (eexists; split; [flatten_trace; reflexivity|]); reflexivity.
Qed.

(** The trace of [run] along the outcomes of its steps. *)
Lemma run_trace (env : Env) (inputs : TaskInputs) (w : World) :
  exists w', run env inputs w = (Ok tt, w') /\
    match validateInputs env inputs (started w) with
    | (Throw e, w1) =>
        trace w' = trace w1 ++
          [EvConsole Error (TaskFailed e); EvSetResult Failed (TaskFailed e)]
    | (Ok _, w1) =>
        match generateDocumentation env inputs w1 with
        | (Throw e, w2) =>
            trace w' = trace w2 ++
              [EvConsole Error (TaskFailed e); EvSetResult Failed (TaskFailed e)]
        | (Ok _, w2) =>
            exists lvl msg,
              trace w' = trace w2 ++
                [EvConsole Log (loc env (lit "PublishingArtifacts") [ArtifactName]);
                 uploadCall inputs;
                 EvConsole lvl msg;
                 EvConsole Log (lit "Documentation generation task completed successfully");
                 EvSetResult Succeeded SuccessMessage]
        end
    end.
Proof.
  unfold run, started, TaskFailed.
  unfold try_catch at 1. unfold bind at 1. unfold console_log at 1, emit at 1.
  unfold bind at 1.
  destruct (validateInputs env inputs _) as [[u|e] w1].
  - unfold bind at 1.
    destruct (generateDocumentation env inputs w1) as [[u2|e] w2].
    + unfold bind at 1.
      destruct (publishArtifacts_outcome env inputs w2) as (w3 & -> & _ & _ & _ & Ht).
      unfold_calls. simpl. eexists; split; [reflexivity|].
      simpl. rewrite Ht. unfold publishing, record. simpl.
      destruct (fault env _ _); eexists _, _; rewrite <- !app_assoc; simpl; reflexivity.
    + unfold_calls. simpl. eexists; split; [reflexivity|].
      simpl. rewrite <- !app_assoc. reflexivity.
  - unfold_calls. simpl. eexists; split; [reflexivity|].
    simpl. rewrite <- !app_assoc. reflexivity.
Qed.

(** X11: [run] always returns normally, and the last host result it
    records is the success result exactly when validation and generation
    both returned normally, whatever validation recorded and whatever the
    upload did; otherwise it is the task failure carrying the thrown
    error. *)
Theorem run_last_result (env : Env) (inputs : TaskInputs) (w : World) :
  fst (run env inputs w) = Ok tt /\
  exists earlier,
    results (trace (snd (run env inputs w)))
    = earlier ++
      [match validateInputs env inputs (started w) with
       | (Throw e, _) => (Failed, TaskFailed e)
       | (Ok _, w1) =>
           match fst (generateDocumentation env inputs w1) with
           | Throw e => (Failed, TaskFailed e)
           | Ok _ => (Succeeded, SuccessMessage)
           end
       end].
Proof.
  destruct (run_outcome env inputs w) as (w' & Hrun & Hres). rewrite Hrun. simpl.
  split; [reflexivity|].
  destruct (validateInputs env inputs (started w)) as [[u|e] w1].
  - destruct (generateDocumentation env inputs w1) as [[u2|e] w2]; simpl; eauto.
  - eauto.
Qed.

(** X12: [run] uploads the artifact exactly once, under the fixed name
    and with the output directory, when validation and generation both
    returned normally, and never otherwise. *)
Theorem run_uploads (env : Env) (inputs : TaskInputs) (w : World) :
  uploads (trace (snd (run env inputs w)))
  = uploads (trace w) ++
    match validateInputs env inputs (started w) with
    | (Throw _, _) => []
    | (Ok _, w1) =>
        match fst (generateDocumentation env inputs w1) with
        | Throw _ => []
        | Ok _ => [(ArtifactName, outputDirectory inputs, ArtifactName)]
        end
    end.
Proof.
  destruct (run_trace env inputs w) as (w' & Hrun & Ht). rewrite Hrun. simpl.
  destruct (validateInputs_trace env inputs (started w)) as (ev1 & Hv & Hu1).
  destruct (validateInputs env inputs (started w)) as [[u|e] w1]; simpl in Hv.
  - destruct (generateDocumentation_trace env inputs w1) as (ev2 & Hg & Hu2).
    destruct (generateDocumentation env inputs w1) as [[u2|e] w2]; simpl in Hg |- *.
    + destruct Ht as (lvl & msg & ->). rewrite Hg, Hv.
      unfold started, record, uploads. simpl.
      rewrite !omap_app. fold (uploads ev1) (uploads ev2). rewrite Hu1, Hu2. simpl.
      rewrite !app_nil_r. reflexivity.
    + rewrite Ht, Hg, Hv. unfold started, record, uploads. simpl.
      rewrite !omap_app. fold (uploads ev1) (uploads ev2). rewrite Hu1, Hu2. simpl.
      rewrite !app_nil_r. reflexivity.
  - rewrite Ht, Hv. unfold started, record, uploads. simpl.
    rewrite !omap_app. fold (uploads ev1). rewrite Hu1. simpl.
    rewrite !app_nil_r. reflexivity.
Qed.

(** ** Further properties of the entry point *)

(** Reading the inputs changes nothing in the world. *)
Lemma construct_pure (env : Env) (api : HostApi) (w : World) :
  snd (construct env api w) = w.
Proof.
  unfold construct, liftOutcome. unfold_calls.
  repeat case_step; simplify_eq; reflexivity.
Qed.

Lemma run_results_extend (env : Env) (inputs : TaskInputs) (w : World) :
  exists new,
    results (trace (snd (run env inputs w))) = results (trace w) ++ new /\ new <> [].
Proof.
  destruct (run_outcome env inputs w) as (w' & Hrun & Hres). rewrite Hrun. simpl.
  destruct (validateInputs_trace env inputs (started w)) as (ev1 & Hv & _).
  assert (Hr1 : results (trace (snd (validateInputs env inputs (started w))))
                = results (trace w) ++ results ev1).
  { rewrite Hv. unfold started, record. simpl. rewrite !results_app. simpl.
    rewrite app_nil_r. reflexivity. }
  destruct (validateInputs env inputs (started w)) as [[u|e] w1]; simpl in Hr1.
  - pose proof (generateDocumentation_results env inputs w1) as Hg.
    destruct (generateDocumentation env inputs w1) as [[u2|e] w2]; simpl in Hg.
    + exists (results ev1 ++ [(Succeeded, SuccessMessage)]).
      rewrite Hres, Hg, Hr1, <- !app_assoc. split; [reflexivity|].
      intros H. apply app_eq_nil in H as [_ H]. discriminate H.
    + exists (results ev1 ++ [(Failed, GenerationFailed e); (Failed, TaskFailed e)]).
      rewrite Hres, Hg, Hr1, <- !app_assoc. split; [reflexivity|].
      intros H. apply app_eq_nil in H as [_ H]. discriminate H.
  - exists (results ev1 ++ [(Failed, TaskFailed e)]).
    rewrite Hres, Hr1, <- !app_assoc. split; [reflexivity|].
    intros H. apply app_eq_nil in H as [_ H]. discriminate H.
Qed.

(** X13: under NODE_ENV=test the module's last statement does nothing.
    Otherwise, when reading the inputs throws, the unhandled-error handler
    logs the error and records one failure, and nothing else is called;
    when the inputs are read, the statement is the run of the task on them
    and the handler is never reached. *)
Theorem entry_outcome (env : Env) (api : HostApi) (nodeEnv : option jstr)
    (inspect : jstr -> jstr) (w : World) :
  if bool_decide (nodeEnv = Some (lit "test")) then
    entry env api nodeEnv inspect w = (Ok tt, w)
  else
    match fst (construct env api w) with
    | Throw e =>
        entry env api nodeEnv inspect w
        = (Ok tt,
           {| cwd := cwd w; fs := fs w;
              trace := trace w ++
                [EvConsole Error (lit "Unhandled error: " ++ inspect e);
                 EvSetResult Failed (UnhandledError e)] |})
    | Ok task => entry env api nodeEnv inspect w = run env task w
    end.
Proof.
  unfold entry. destruct (bool_decide (nodeEnv = Some (lit "test"))) eqn:Et.
  - apply bool_decide_eq_true_1 in Et. subst nodeEnv.
    assert (Ht : truthy (Some (lit "test")) = true) by (vm_compute; reflexivity).
    rewrite Ht. reflexivity.
  - rewrite orb_true_r. unfold main, try_catch, bind.
    pose proof (construct_pure env api w) as Hp.
    destruct (construct env api w) as [[task|e] w0]; simpl in Hp |- *; subst w0.
    + destruct (run_outcome env task w) as (w' & -> & _). reflexivity.
    + unfold_calls. simpl. rewrite <- app_assoc. reflexivity.
Qed.

(** X14: outside test mode the module's last statement always returns
    normally and always records at least one host result. *)
Theorem entry_always_reports (env : Env) (api : HostApi) (nodeEnv : option jstr)
    (inspect : jstr -> jstr) (w : World) :
  nodeEnv <> Some (lit "test") ->
  exists w' new,
    entry env api nodeEnv inspect w = (Ok tt, w') /\
    results (trace w') = results (trace w) ++ new /\
    new <> [].
Proof.
  intros Hmode. unfold entry.
  rewrite (bool_decide_eq_false_2 _ Hmode), orb_true_r.
  unfold main, try_catch, bind.
  pose proof (construct_pure env api w) as Hp.
  destruct (construct env api w) as [[task|e] w0]; simpl in Hp |- *; subst w0.
  - destruct (run_results_extend env task w) as (new & Hr & Hne).
    destruct (run_outcome env task w) as (w' & Hrun & _). rewrite Hrun in Hr |- *.
    exists w', new. auto.
  - unfold_calls. simpl. eexists _, [_]. split; [reflexivity|]. simpl.
    rewrite !results_app. simpl. rewrite app_nil_r. split; [reflexivity|discriminate].
Qed.

Lemma entry_always_reports_witness :
  exists w' new,
    entry healthyEnv namelessApi None (fun e => e) scenarioWorld = (Ok tt, w') /\
    results (trace w') = results (trace scenarioWorld) ++ new /\
    new <> [].
Proof.
  apply (entry_always_reports healthyEnv namelessApi None (fun e => e) scenarioWorld).
  discriminate.
Defined.

(** A host without the required project name: one failure, nothing run. *)
Example entry_without_project_name :
  snd (entry healthyEnv namelessApi None (fun e => e) scenarioWorld)
  = {| cwd := lit "/original"; fs := fs scenarioWorld;
       trace := [EvConsole Error (lit "Unhandled error: Error: Input required: ProjectName");
                 EvSetResult Failed
                   (lit "Unhandled error: Error: Input required: ProjectName")] |}.
Proof. vm_compute. reflexivity. Qed.

(** The accessors of the test suite give the inputs of the test suite. *)
Example construct_scenario :
  fst (construct healthyEnv scenarioApi scenarioWorld)
  = Ok (scenarioInputs false (Some (lit "/test/custom/doxyfile"))).
Proof. vm_compute. reflexivity. Qed.

(** X15: the inputs read from the host always carry a non-empty version,
    so the configuration generated from them shows the host's version, or
    1.0 when the host gives none or an empty one; the fallback inside the
    template is never taken for them. *)
Theorem constructed_version (env : Env) (api : HostApi) (w w1 : World)
    (task : TaskInputs) (version : option jstr) :
  construct env api w = (Ok task, w1) ->
  apiGetInput api (lit "ProjectVersion") false = Ok version ->
  truthy (projectVersion task) = true /\
  includes (generateAutoDoxyfile task)
    ([LF] ++ lit "PROJECT_NUMBER         = " ++ [DQUOTE]
       ++ match version with
          | Some (c :: v) => c :: v
          | _ => lit "1.0"
          end
       ++ [DQUOTE] ++ [LF]).
Proof.
  intros Hc Hv. unfold construct, liftOutcome in Hc. unfold_calls.
  rewrite Hv in Hc.
  repeat match type of Hc with
         | context [match ?x with _ => _ end] =>
             lazymatch x with
             | context [match _ with _ => _ end] => fail
             | _ => destruct x eqn:?; simpl in Hc
             end
         end; simplify_eq.
  assert (H10 : exists c v, lit "1.0" = c :: v) by (eexists _, _; vm_compute; reflexivity).
  destruct H10 as (c0 & v0 & H10).
  unfold generateAutoDoxyfile, or_else; cbn [projectVersion projectName].
  destruct version as [[|c v]|]; rewrite ?H10; cbn [truthy];
    (split; [reflexivity|]); find_line.
Qed.

Lemma constructed_version_witness :
  includes
    (generateAutoDoxyfile (scenarioInputs false (Some (lit "/test/custom/doxyfile"))))
    ([LF] ++ lit "PROJECT_NUMBER         = " ++ [DQUOTE] ++ lit "1.0.0" ++ [DQUOTE] ++ [LF]).
Proof.
  destruct (constructed_version healthyEnv scenarioApi scenarioWorld scenarioWorld
              (scenarioInputs false (Some (lit "/test/custom/doxyfile")))
              (Some (lit "1.0.0"))) as [_ H].
  - vm_compute. reflexivity.
  - vm_compute. reflexivity.
  - destruct H as (pre & post & H). exists pre, post. rewrite H.
    vm_compute. reflexivity.
Defined.

(** ** Further properties of the custom-mode rewrite *)

(** X16: for every output directory, with or without replacement
    patterns, the rewrite changes nothing outside the first directive: a
    text without a directive comes back as it is (nothing is inserted), and
    otherwise the text before and after the first directive is kept and
    the directive gives way to the expanded replacement. *)
Theorem patch_keeps_surroundings (outdir text : jstr) :
  (noDirective text /\ patchOutputDirectory outdir text = text) \/
  (exists pre m post,
     firstDirective text pre m post /\
     patchOutputDirectory outdir text
     = pre ++ GetSubstitution m pre post (directiveLine outdir) ++ post).
Proof.
  unfold patchOutputDirectory, replace, directiveLine.
  pose proof (search_spec text None) as Hspec.
  destruct (search outputDirectoryRe None text) as [[[pre m] post]|].
  - destruct Hspec as (Htext & Hm & Hfirst).
    right. exists pre, m, post. split; [|reflexivity].
    destruct (matchDirective_Some _ _ _ _ Hm) as (Hstart & _ & Hdir & Hend).
    repeat split; try assumption.
    intros p1 p2 Hp Hne.
    apply (matchDirective_None_no_directive p1 None); [|reflexivity].
    apply Hfirst; assumption.
  - left. split; [|reflexivity].
    intros p1 p2 Hp.
    apply (matchDirective_None_no_directive p1 None); [|reflexivity].
    apply Hspec, Hp.
Qed.

(** X17: for an output directory without replacement patterns and line
    terminators, a text that has a directive comes out with
    [OUTPUT_DIRECTORY = <output directory>] as its first directive; a text
    without one still has none. *)
Theorem patched_first_directive (outdir text : jstr) :
  patternFree outdir = true ->
  forallb isDot outdir = true ->
  (noDirective text /\ noDirective (patchOutputDirectory outdir text)) \/
  (exists pre post,
     patchOutputDirectory outdir text = pre ++ directiveLine outdir ++ post /\
     firstDirective (patchOutputDirectory outdir text) pre (directiveLine outdir) post).
Proof.
  intros Hfree Hout. unfold patchOutputDirectory, replace, directiveLine.
  pose proof (search_spec text None) as Hspec.
  destruct (search outputDirectoryRe None text) as [[[pre m] post]|].
  - destruct Hspec as (Htext & Hm & Hfirst).
    rewrite (GetSubstitution_patternFree _ _ _ _ (template_patternFree _ Hfree)).
    right. exists pre, post. split; [reflexivity|].
    pose proof (search_replaced outdir m post Hout pre None Hm Hfirst) as Hs.
    pose proof (search_spec
                  (pre ++ (OUTPUT_DIRECTORY ++ SPACE :: EQUALS :: SPACE :: outdir) ++ post)
                  None) as Hspec'.
    rewrite Hs in Hspec'. destruct Hspec' as (_ & Hm' & Hfirst').
    destruct (matchDirective_Some _ _ _ _ Hm') as (Hstart & _ & Hdir & Hend).
    rewrite template_shape.
    repeat split; try assumption.
    intros p1 p2 Hp Hne.
    apply (matchDirective_None_no_directive p1 None); [|reflexivity].
    apply Hfirst'; assumption.
  - assert (Hno : noDirective text).
    { intros p1 p2 Hp.
      apply (matchDirective_None_no_directive p1 None); [|reflexivity].
      apply Hspec, Hp. }
    left. split; exact Hno.
Qed.

Lemma patched_first_directive_witness :
  (noDirective (lit "OUTPUT_DIRECTORY = /old/path") /\
   noDirective (patchOutputDirectory (lit "/test/output")
                  (lit "OUTPUT_DIRECTORY = /old/path"))) \/
  (exists pre post,
     patchOutputDirectory (lit "/test/output") (lit "OUTPUT_DIRECTORY = /old/path")
     = pre ++ directiveLine (lit "/test/output") ++ post /\
     firstDirective
       (patchOutputDirectory (lit "/test/output") (lit "OUTPUT_DIRECTORY = /old/path"))
       pre (directiveLine (lit "/test/output")) post).
Proof.
  apply (patched_first_directive (lit "/test/output") (lit "OUTPUT_DIRECTORY = /old/path")).
  - vm_compute. reflexivity.
  - vm_compute. reflexivity.
Defined.

(** ** Further properties of the synthesized configuration *)

(** X18: whatever the inputs, the synthesized configuration carries the
    fixed settings, each on a line of its own: recursive scan, HTML on and
    LaTeX off, full extraction, source browsing, preprocessing with macro
    expansion, no dot tool, class diagrams; and the brief names the
    project. *)
Theorem auto_config_fixed_settings (inputs : TaskInputs) :
  includes (generateAutoDoxyfile inputs)
    ([LF] ++ lit "PROJECT_BRIEF          = " ++ [DQUOTE] ++ lit "Documentation for "
       ++ projectName inputs ++ [DQUOTE] ++ [LF]) /\
  Forall (fun setting => includes (generateAutoDoxyfile inputs) ([LF] ++ setting ++ [LF]))
    [lit "RECURSIVE              = YES";
     lit "GENERATE_HTML          = YES";
     lit "GENERATE_LATEX         = NO";
     lit "HTML_OUTPUT            = html";
     lit "EXTRACT_ALL            = YES";
     lit "EXTRACT_PRIVATE        = YES";
     lit "EXTRACT_STATIC         = YES";
     lit "EXTRACT_LOCAL_CLASSES  = YES";
     lit "SOURCE_BROWSER         = YES";
     lit "INLINE_SOURCES         = YES";
     lit "ENABLE_PREPROCESSING   = YES";
     lit "MACRO_EXPANSION        = YES";
     lit "EXPAND_ONLY_PREDEF     = NO";
     lit "HAVE_DOT               = NO";
     lit "CLASS_DIAGRAMS         = YES"].
Proof.
  unfold generateAutoDoxyfile. split; [find_line|].
  repeat (apply Forall_cons; split; [find_line|]). apply Forall_nil. exact I.
Qed.

(** ** The run in a healthy environment *)

Section Healthy.

Variable env : Env.
Variable inputs : TaskInputs.
Hypothesis no_fault : forall ev w, fault env ev w = None.
Hypothesis exec_resolves : forall cmd w, exists out fs', os_exec env cmd w = (Ok out, fs').
Hypothesis auto_mode : useCustomDoxyFile inputs = false.

Lemma validateInputs_healthy (w : World) :
  exists w1, validateInputs env inputs w = (Ok tt, w1) /\
    cwd w1 = cwd w /\ trace w1 = trace w ++
      [EvExec (lit "doxygen --version");
       EvConsole Log (lit "Doxygen found and available");
       EvEnsureDir (outputDirectory inputs)].
Proof.
  unfold validateInputs, checkDoxygenInstallation. unfold_calls.
  destruct (exec_resolves (lit "doxygen --version") w) as (out & fs' & ->). simpl.
  rewrite auto_mode. simpl. rewrite no_fault.
  eexists; split; [reflexivity|]. simpl. rewrite <- !app_assoc. auto.
Qed.

Lemma generateDocumentation_healthy (w : World) :
  exists w2, generateDocumentation env inputs w = (Ok tt, w2).
Proof.
  unfold generateDocumentation. unfold_calls. simpl.
  rewrite auto_mode. simpl. repeat (progress (rewrite ?no_fault; simpl)).
  match goal with
  | |- context [os_exec env ?c ?w0] =>
      destruct (exec_resolves c w0) as ([so se] & fs' & ->)
  end.
  simpl. destruct so, se; repeat (progress (rewrite ?no_fault; simpl));
    eexists; reflexivity.
Qed.

(** X19: in auto mode, with a generator that resolves and no failing
    process, file-system or host call, [run] records exactly the success
    result, uploads the output directory once, and leaves the working
    directory where it was. *)
Theorem healthy_run_succeeds (w : World) :
  exists w', run env inputs w = (Ok tt, w') /\
    results (trace w') = results (trace w) ++ [(Succeeded, SuccessMessage)] /\
    uploads (trace w')
    = uploads (trace w) ++ [(ArtifactName, outputDirectory inputs, ArtifactName)] /\
    cwd w' = cwd w.
Proof.
  destruct (validateInputs_healthy (started w)) as (w1 & Hv & Hc1 & Ht1).
  destruct (generateDocumentation_healthy w1) as (w2 & Hg).
  pose proof (generateDocumentation_outcome env inputs w1) as Ho.
  destruct (generateDocumentation_trace env inputs w1) as (ev2 & Ht2 & Hu2).
  rewrite Hg in Ho, Ht2. simpl in Ht2. destruct Ho as (Hc2 & Hr2 & _).
  destruct (publishArtifacts_outcome env inputs w2) as (w3 & Hp & Hc3 & _ & Hr3 & Ht3).
  unfold run. unfold try_catch, bind at 1. unfold console_log at 1, emit at 1.
  fold (started w). unfold bind at 1. rewrite Hv. unfold bind at 1. rewrite Hg.
  unfold bind at 1. rewrite Hp. unfold_calls. simpl.
  eexists; split; [reflexivity|]. simpl. repeat split.
  - rewrite !results_app, Hr3, Hr2, Ht1. unfold started, record. simpl.
    rewrite !results_app. simpl. rewrite !app_nil_r. reflexivity.
  - rewrite Ht3, no_fault. unfold publishing, record. simpl. rewrite Ht2, Ht1.
    unfold started, record, uploads, uploadCall. simpl.
    rewrite !omap_app. fold (uploads ev2). rewrite Hu2. simpl.
    rewrite ?app_nil_r. reflexivity.
  - rewrite Hc3, Hc2, Hc1. reflexivity.
Qed.

End Healthy.

Lemma healthy_run_succeeds_witness :
  exists w', run healthyEnv autoInputs scenarioWorld = (Ok tt, w') /\
    results (trace w') = [(Succeeded, SuccessMessage)] /\
    uploads (trace w') = [(ArtifactName, lit "/test/output", ArtifactName)] /\
    cwd w' = lit "/original".
Proof.
  destruct (healthy_run_succeeds healthyEnv autoInputs) with (w := scenarioWorld)
    as (w' & Hrun & Hr & Hu & Hc).
  - intros ev w. destruct ev; reflexivity.
  - intros cmd w. unfold healthyEnv, scenarioEnv, scenarioExec. simpl.
    destruct (bool_decide (cmd = ProbeCommand)); eexists _, _; reflexivity.
  - reflexivity.
  - exists w'. split; [exact Hrun|]. rewrite Hr, Hu, Hc. repeat split.
Defined.

(** ** The generator's output streams *)

(** X20: a run of [generateDocumentation] that returns has logged the
    generator's standard error as one warning when it is not empty, and no
    warning otherwise: output on standard error does not fail the step. *)
Theorem generator_stderr_is_a_warning (env : Env) (inputs : TaskInputs) (w w' : World) :
  generateDocumentation env inputs w = (Ok tt, w') ->
  exists wg out fsg,
    os_exec env (generatorCommand (tempConfigPathOf env inputs)) wg = (Ok out, fsg) /\
    warnings (trace w')
    = warnings (trace w) ++
      match snd out with
      | [] => []
      | _ => [lit "Doxygen warnings: " ++ snd out]
      end.
Proof.
  unfold generateDocumentation, tempConfigPathOf. unfold_calls. simpl.
  repeat case_step; intros H; simplify_eq; simpl;
    (eexists _, _, _; split; [eassumption|]); simpl;
    repeat match goal with Hs : snd _ = _ |- _ => rewrite Hs; clear Hs end;
    unfold warnings; rewrite !omap_app; simpl; rewrite ?app_nil_r; reflexivity.
Qed.

Lemma generator_stderr_is_a_warning_witness :
  exists wg out fsg,
    os_exec healthyEnv (generatorCommand (tempConfigPathOf healthyEnv autoInputs)) wg
    = (Ok out, fsg) /\
    warnings (trace (snd (generateDocumentation healthyEnv autoInputs scenarioWorld)))
    = warnings (trace scenarioWorld) ++
      match snd out with
      | [] => []
      | _ => [lit "Doxygen warnings: " ++ snd out]
      end.
Proof.
  apply (generator_stderr_is_a_warning healthyEnv autoInputs scenarioWorld
           (snd (generateDocumentation healthyEnv autoInputs scenarioWorld))).
  vm_compute. reflexivity.
Defined.
